(** * Preferences UI: tree widget, editors container, preferences container

  A shallow embedding of
  [packages/preferences/src/browser/preferences-tree-widget.ts].

  The three classes of the file are modelled in three modules:
  - [TreeWidget]        : [PreferencesTreeWidget]  ([initializeModel], [sort]);
  - [EditorsContainer]  : [PreferencesEditorsContainer]
                          (the Folder-scope editor life cycle);
  - [Container]         : [PreferencesContainer]
                          (aggregate dirtiness, selection and focus handlers).
  [JS] holds the string operations they use, [Widgets] the editor widgets,
  [Services] the injected services, [Samples] concrete hosts and states.
  The properties come after the definitions, one module of facts per class.

  Effects on the outside (a warning, a preference write, a save, a fired
  event, a closed widget) are appended to an effect list carried by the state.

  Strings are [string], read as sequences of code units below 256 (the
  preference keys of a schema are mostly ASCII identifiers separated by
  dots); what depends on the locale of the host, collation and upper-casing,
  is a parameter. JavaScript numbers that are indices are [Z] (so that
  [indexOf] can answer [-1]) or [nat] (array lengths). *)

From Stdlib Require Import List String Ascii ZArith Lia Bool Arith.
From Stdlib Require Import Permutation Sorted DecimalString OrdersEx RelationClasses.
Import ListNotations.

Local Open Scope string_scope.

(** ** The fragment of the JavaScript string library the file uses *)

Module JS.

(** A value is falsy when it is [undefined] or the empty string. *)
Definition truthy (s : string) : bool :=
  match s with
  | EmptyString => false
  | String _ _ => true
  end.

Fixpoint indexOf_from (c : ascii) (s : string) (i : Z) : Z :=
  match s with
  | EmptyString => (-1)%Z
  | String a r => if Ascii.eqb a c then i else indexOf_from c r (i + 1)%Z
  end.

(** [s.indexOf(c)] for a one-character needle: [-1] when absent. *)
Definition indexOf (c : ascii) (s : string) : Z := indexOf_from c s 0.

Definition clamp (n : Z) (len : nat) : nat :=
  Z.to_nat (Z.min (Z.max n 0) (Z.of_nat len)).

(** [s.substring(a, b)]: both indices are clamped to [0 .. length] and
  swapped when [a > b]. *)
Definition substring (s : string) (a b : Z) : string :=
  let len := String.length s in
  let a' := clamp a len in
  let b' := clamp b len in
  String.substring (Nat.min a' b') (Nat.max a' b' - Nat.min a' b') s.

(** [s.substring(a)]. *)
Definition substring_from (s : string) (a : Z) : string :=
  substring s a (Z.of_nat (String.length s)).

(** [s.split(c)] for a one-character separator; never empty. *)
Fixpoint split (c : ascii) (s : string) : list string :=
  match s with
  | EmptyString => [EmptyString]
  | String a r =>
      if Ascii.eqb a c then EmptyString :: split c r
      else match split c r with
           | [] => [String a EmptyString]
           | h :: t => String a h :: t
           end
  end.

(** [s.split(c, limit)]. *)
Definition split_limit (c : ascii) (limit : nat) (s : string) : list string :=
  firstn limit (split c s).

Definition upper_ascii (a : ascii) : ascii :=
  let n := nat_of_ascii a in
  if (97 <=? n)%nat && (n <=? 122)%nat then ascii_of_nat (n - 32) else a.

(** String concatenation with a number: the decimal numeral. *)
Definition number_to_string (n : nat) : string :=
  NilEmpty.string_of_uint (Nat.to_uint n).

(** The characters before the first occurrence of [c] (all of them when
  there is none): the first segment of [s.split(c)]. *)
Fixpoint prefix_before (c : ascii) (s : string) : string :=
  match s with
  | EmptyString => EmptyString
  | String a r => if Ascii.eqb a c then EmptyString else String a (prefix_before c r)
  end.

(** [c] occurs in [s]. *)
Definition contains (c : ascii) (s : string) : Prop :=
  In c (list_ascii_of_string s).

End JS.

(** ** PreferencesTreeWidget *)

Module TreeWidget.

(** Modelled from the spec: a preference property carries "type/default
  metadata"; it is owned by the schema provider and only passed through. *)
Record PreferenceDataProperty := {
  pdp_type : string;
  pdp_default : string
}.

(** The [properties] object of the combined schema, as its keys are
  enumerated by [for ... in]. *)
Definition Properties := list (string * PreferenceDataProperty).

Definition keys (p : Properties) : list string := map fst p.

(** [this.properties[property]]. *)
Fixpoint lookup (k : string) (p : Properties) : option PreferenceDataProperty :=
  match p with
  | [] => None
  | (k', v) :: r => if String.eqb k' k then Some v else lookup k r
  end.

Record LeafNode := {
  leaf_id : string;
  leaf_name : string;
  leaf_parent : string;        (* id of the parent group node *)
  leaf_visible : bool;
  leaf_selected : bool
}.

Record GroupNode := {
  group_id : string;
  group_name : string;
  group_visible : bool;
  group_parent : string;       (* id of the root node *)
  group_children : list LeafNode;
  group_expanded : bool;
  group_selected : bool
}.

Record RootNode := {
  root_id : string;
  root_name : string;
  root_visible : bool;
  root_children : list GroupNode;
  root_expanded : bool
}.

(** What the decorator receives: one singleton object per leaf. *)
Definition Decoration := (string * option PreferenceDataProperty)%type.

Record State := {
  activeFolderUri : option string;
  preferencesGroupNames : list string;   (* a [Set]: insertion order, no duplicate *)
  properties : Properties;
  model_root : option RootNode;
  decorations_fired : list (list Decoration)
}.

(** The widget as the constructor leaves it. *)
Definition initial : State := {|
  activeFolderUri := None;
  preferencesGroupNames := [];
  properties := [];
  model_root := None;
  decorations_fired := []
|}.

(** [Set.prototype.add]. *)
Definition set_add (x : string) (s : list string) : list string :=
  if existsb (String.eqb x) s then s else s ++ [x].

(** The group of a key: [property.substring(0, property.indexOf('.'))]. *)
Definition group_of (property : string) : string :=
  JS.substring property 0 (JS.indexOf "." property).

(** [property.split('.').length > 1]. *)
Definition has_group (property : string) : bool :=
  (1 <? List.length (JS.split "." property))%nat.

(** First loop of [initializeModel]. *)
Definition collect_group (acc : list string) (property : string) : list string :=
  if JS.truthy property then
    if has_group property then set_add (group_of property) acc else acc
  else acc.

Definition collect_groups (names : list string) (from : list string) : list string :=
  fold_left collect_group names from.

(** [property.split('.', 1)[0]]. *)
Definition first_segment (property : string) : option string :=
  nth_error (JS.split_limit "." 1 property) 0.

(** [property.substring(property.indexOf('.') + 1)]. *)
Definition short_name (property : string) : string :=
  JS.substring_from property (JS.indexOf "." property + 1).

Section Host.

(** [a.localeCompare(b, undefined, { ignorePunctuation: true })]: the
  collation of the host. *)
Variable localeCompare : string -> string -> Z.

(** [PreferenceConfigurations.isSectionName]. *)
Variable isSectionName : string -> bool.

(** [s.toLocaleUpperCase()]: the upper-casing of the host, which depends on
  its locale and may change the length of a string. *)
Variable toLocaleUpperCase : string -> string.

Definition group_label (group : string) (count : nat) : string :=
  JS.substring (toLocaleUpperCase group) 0 1 ++ JS.substring_from group 1
    ++ " (" ++ JS.number_to_string count ++ ")".

(** The label as the specification words it: the group name with its first
  character capitalized, then the count in parentheses. *)
Definition capitalized (group : string) : string :=
  toLocaleUpperCase (JS.substring group 0 1) ++ JS.substring_from group 1.

Definition spec_label (group : string) (count : nat) : string :=
  capitalized group ++ " (" ++ JS.number_to_string count ++ ")".

Definition sort (a b : string) : Z := localeCompare a b.

(** [Array.prototype.sort] with a comparator, as a stable sort: elements that
  compare equal keep their order. *)
Fixpoint insert (x : string) (l : list string) : list string :=
  match l with
  | [] => [x]
  | y :: l' => if (sort x y <=? 0)%Z then x :: l else y :: insert x l'
  end.

Fixpoint array_sort (l : list string) : list string :=
  match l with
  | [] => []
  | x :: l' => insert x (array_sort l')
  end.

(** The keys pushed to [properties] for one group. *)
Definition is_member (group property : string) : bool :=
  match first_segment property with
  | Some seg => String.eqb seg group && negb (isSectionName property)
  | None => false
  end.

Definition members (group : string) (names : list string) : list string :=
  filter (is_member group) names.

Definition make_leaf (group property : string) : LeafNode := {|
  leaf_id := property;
  leaf_name := short_name property;
  leaf_parent := group ++ "-id";
  leaf_visible := true;
  leaf_selected := false
|}.

Definition make_group (names : list string) (group : string) : GroupNode :=
  let props := members group names in
  {| group_id := group ++ "-id";
     group_name := group_label group (List.length props);
     group_visible := true;
     group_parent := "root-node-id";
     group_children := map (make_leaf group) (array_sort props);
     group_expanded := false;
     group_selected := false |}.

Definition group_decorations (p : Properties) (group : string) : list Decoration :=
  map (fun property => (property, lookup property p))
      (array_sort (members group (keys p))).

Definition initializeModel (schema : Properties) (st : State) : State :=
  let names := collect_groups (keys schema) (preferencesGroupNames st) in
  let groupNames := array_sort names in
  let root := {|
    root_id := "root-node-id";
    root_name := "Apply the preference to selected preferences file";
    root_visible := true;
    root_children := map (make_group (keys schema)) groupNames;
    root_expanded := true
  |} in
  {| activeFolderUri := activeFolderUri st;
     preferencesGroupNames := names;
     properties := schema;
     model_root := Some root;
     decorations_fired :=
       decorations_fired st ++ [flat_map (group_decorations schema) groupNames] |}.

(** [setActiveFolder]. *)
Definition setActiveFolder (folder : string) (st : State) : State :=
  {| activeFolderUri := Some folder;
     preferencesGroupNames := preferencesGroupNames st;
     properties := properties st;
     model_root := model_root st;
     decorations_fired := decorations_fired st |}.

(** The group nodes shown after a rebuild. *)
Definition groups_of (st : State) : list GroupNode :=
  match model_root st with
  | Some r => root_children r
  | None => []
  end.

Definition leaf_ids (g : GroupNode) : list string :=
  map leaf_id (group_children g).

End Host.

(** A reference collation: ASCII punctuation is ignored and what remains is
  compared by character code. *)
Definition is_punct (a : ascii) : bool :=
  let n := nat_of_ascii a in
  ((33 <=? n) && (n <=? 47) || (58 <=? n) && (n <=? 64)
   || (91 <=? n) && (n <=? 96) || (123 <=? n) && (n <=? 126))%nat.

Fixpoint strip_punct (s : string) : string :=
  match s with
  | EmptyString => EmptyString
  | String a r => if is_punct a then strip_punct r else String a (strip_punct r)
  end.

Definition asciiCompare (a b : string) : Z :=
  match String_as_OT.compare (strip_punct a) (strip_punct b) with
  | Lt => (-1)%Z
  | Eq => 0%Z
  | Gt => 1%Z
  end.

Definition noSection (_ : string) : bool := false.

(** The sharp s, code unit 223. *)
Definition sharp_s : ascii := "223"%char.

(** A reference upper-casing: the letters a to z become capitals and the
  sharp s becomes SS, as in every locale but for the Turkic i; other code
  units are kept. *)
Fixpoint latinUpper (s : string) : string :=
  match s with
  | EmptyString => EmptyString
  | String a r =>
      if Ascii.eqb a sharp_s then String "S" (String "S" (latinUpper r))
      else String (JS.upper_ascii a) (latinUpper r)
  end.

(** A consistent comparison function, as [Array.prototype.sort] expects of
  its comparator. *)
Definition consistent (cmp : string -> string -> Z) : Prop :=
  (forall a b, (cmp a b < 0)%Z <-> (0 < cmp b a)%Z) /\
  (forall a b c, (cmp a b <= 0)%Z -> (cmp b c <= 0)%Z -> (cmp a c <= 0)%Z).

(** [a] is sorted before or with [b]. *)
Definition collated (cmp : string -> string -> Z) (a b : string) : Prop :=
  (cmp a b <= 0)%Z.


Definition pdp0 : PreferenceDataProperty :=
  {| pdp_type := "number"; pdp_default := "0" |}.

Definition schema3 : Properties :=
  [("editor.fontSize", pdp0); ("editor.tabSize", pdp0); ("files.exclude", pdp0)].

Definition schema_old : Properties := [("old.setting", pdp0)].

Definition schema_new : Properties := [("editor.fontSize", pdp0)].



(** A group name that begins with the sharp s. *)
Definition sharp_group : string := String sharp_s "eta".

Definition schema_sharp : Properties := [(sharp_group ++ ".x", pdp0)].

End TreeWidget.

(** ** Editor widgets *)

Module Widgets.

(** Modelled from the spec: a scope is "one of User, Workspace, Folder". *)
Inductive PreferenceScope := User | Workspace | Folder.

Definition scope_eqb (a b : PreferenceScope) : bool :=
  match a, b with
  | User, User | Workspace, Workspace | Folder, Folder => true
  | _, _ => false
  end.

Inductive AutoSave := AutoSaveOn | AutoSaveOff.

(** The [Saveable] of an editor: the state of its document. *)
Record Saveable := {
  dirty : bool;
  autoSave : AutoSave
}.

Record Title := {
  label : string;
  caption : string;
  iconClass : string;
  clickableText : option string;
  clickableTextTooltip : option string
}.

(** The mutable fields of a [PreferencesEditorWidget]. *)
Record PreferencesEditorWidget := {
  scope : option PreferenceScope;
  title : Title;
  saveable : Saveable
}.

(** Modelled from the spec: there is one editor widget per target URI, so a
  widget is referred to by [editor.uri.toString()]. *)
Definition WidgetRef := string.

(** The widgets that exist, with their current fields. *)
Definition Store := list (WidgetRef * PreferencesEditorWidget).

Definition empty_title : Title := {|
  label := ""; caption := ""; iconClass := "";
  clickableText := None; clickableTextTooltip := None
|}.

Definition fresh_widget : PreferencesEditorWidget := {|
  scope := None;
  title := empty_title;
  saveable := {| dirty := false; autoSave := AutoSaveOff |}
|}.

Fixpoint find (r : WidgetRef) (s : Store) : option PreferencesEditorWidget :=
  match s with
  | [] => None
  | (r', w) :: rest => if String.eqb r' r then Some w else find r rest
  end.

Definition deref (s : Store) (r : WidgetRef) : PreferencesEditorWidget :=
  match find r s with
  | Some w => w
  | None => fresh_widget
  end.

(** Assignment to fields of the widget [r]. *)
Fixpoint update (r : WidgetRef) (f : PreferencesEditorWidget -> PreferencesEditorWidget)
         (s : Store) : Store :=
  match s with
  | [] => [(r, f fresh_widget)]
  | (r', w) :: rest =>
      if String.eqb r' r then (r', f w) :: rest else (r', w) :: update r f rest
  end.

(** [a || b] on an optional string. *)
Definition or_else (a b : option string) : option string :=
  match a with
  | Some s => if JS.truthy s then a else b
  | None => b
  end.

(** [editor.scope || PreferenceScope.User]: an editor whose scope is not set
  counts as a User editor (the three scopes are truthy values). *)
Definition scope_or_user (sc : option PreferenceScope) : PreferenceScope :=
  match sc with
  | Some s => s
  | None => User
  end.

End Widgets.

(** ** The services the containers are given *)

Module Services.

Record Host := {
  (* URI, on the string form of a URI *)
  uri_parent : string -> string;
  uri_displayName : option string -> string;
  uri_scheme : string -> string;
  uri_path : string -> string;
  uri_resolve : string -> string -> string;
  tildifyPath : string -> string -> string;
  userStorageScheme : string;
  (* workspace service *)
  tryGetRoots : list string;
  saved : bool;
  (* folders preference provider *)
  getConfigUri : option string -> option string;
  getContainingConfigUri : option string -> option string;
  (* file system and environment *)
  getCurrentUserHome : option string;
  getConfigDirUri : string
}.

End Services.

(** ** PreferencesEditorsContainer *)

Module EditorsContainer.

Import Widgets Services.

Inductive Effect :=
| CloseWidget (w : WidgetRef)
| DisposeWidget (w : WidgetRef)
| ActivateWidget (w : WidgetRef)
| CreateFile (uri : string)
| FolderPreferenceEditorUriChanged (uri : string).

Record State := {
  userPreferenceEditorWidget : option WidgetRef;
  workspacePreferenceEditorWidget : option WidgetRef;
  foldersPreferenceEditorWidget : option WidgetRef;
  widgets : list WidgetRef;          (* the tabs of the dock panel, in order *)
  store : Store;
  effects : list Effect              (* oldest first *)
}.

(** Sequential code over the container: a state monad. *)
Definition M (A : Type) : Type := State -> A * State.

Definition ret {A} (a : A) : M A := fun st => (a, st).

Definition bind {A B} (m : M A) (k : A -> M B) : M B :=
  fun st => let (a, st') := m st in k a st'.

Notation "x <- m ;; k" := (bind m (fun x => k))
  (at level 61, m at next level, right associativity).
Notation "m ;;; k" := (bind m (fun _ => k))
  (at level 61, right associativity).

Definition exec {A} (m : M A) (st : State) : State := snd (m st).

Definition get : M State := fun st => (st, st).

Definition emit (e : Effect) : M unit := fun st =>
  (tt, {| userPreferenceEditorWidget := userPreferenceEditorWidget st;
          workspacePreferenceEditorWidget := workspacePreferenceEditorWidget st;
          foldersPreferenceEditorWidget := foldersPreferenceEditorWidget st;
          widgets := widgets st;
          store := store st;
          effects := effects st ++ [e] |}).

Definition set_widgets (ws : list WidgetRef) : M unit := fun st =>
  (tt, {| userPreferenceEditorWidget := userPreferenceEditorWidget st;
          workspacePreferenceEditorWidget := workspacePreferenceEditorWidget st;
          foldersPreferenceEditorWidget := foldersPreferenceEditorWidget st;
          widgets := ws;
          store := store st;
          effects := effects st |}).

Definition set_store (s : Store) : M unit := fun st =>
  (tt, {| userPreferenceEditorWidget := userPreferenceEditorWidget st;
          workspacePreferenceEditorWidget := workspacePreferenceEditorWidget st;
          foldersPreferenceEditorWidget := foldersPreferenceEditorWidget st;
          widgets := widgets st;
          store := s;
          effects := effects st |}).

Definition set_foldersPreferenceEditorWidget (w : option WidgetRef) : M unit := fun st =>
  (tt, {| userPreferenceEditorWidget := userPreferenceEditorWidget st;
          workspacePreferenceEditorWidget := workspacePreferenceEditorWidget st;
          foldersPreferenceEditorWidget := w;
          widgets := widgets st;
          store := store st;
          effects := effects st |}).

Definition remove_ref (w : WidgetRef) (ws : list WidgetRef) : list WidgetRef :=
  filter (fun x => negb (String.eqb x w)) ws.

Fixpoint insert_after (ref w : WidgetRef) (ws : list WidgetRef) : list WidgetRef :=
  match ws with
  | [] => [w]
  | x :: rest => if String.eqb x ref then x :: w :: rest else x :: insert_after ref w rest
  end.

(** [DockPanel.addWidget(w, { ref })]: [w] becomes the tab after [ref] (the
  last tab without a reference); a widget already in the panel is moved. *)
Definition addWidget (w : WidgetRef) (ref : option WidgetRef) : M unit :=
  st <- get ;;
  let others := remove_ref w (widgets st) in
  set_widgets (match ref with
               | Some r => insert_after r w others
               | None => others ++ [w]
               end).

(** [widget.close()]: the widget leaves the panel. *)
Definition close (w : WidgetRef) : M unit :=
  st <- get ;;
  set_widgets (remove_ref w (widgets st)) ;;;
  emit (CloseWidget w).

(** [widget.dispose()]. *)
Definition dispose (w : WidgetRef) : M unit :=
  st <- get ;;
  set_widgets (remove_ref w (widgets st)) ;;;
  emit (DisposeWidget w).

Definition modify (w : WidgetRef) (f : PreferencesEditorWidget -> PreferencesEditorWidget)
  : M unit :=
  st <- get ;;
  set_store (update w f (store st)).

(** Modelled from the spec: the editor manager is "a document/editor-open
  service keyed by URI"; [getOrCreateByUri] answers the widget of that URI,
  creating it when there is none. *)
Definition getOrCreateByUri (uri : string) : M WidgetRef :=
  modify uri (fun w => w) ;;;
  ret uri.

Section Host.

Variable h : Host.

(** [get activeFolder]. *)
Definition activeFolder (st : State) : option string :=
  match foldersPreferenceEditorWidget st with
  | Some w => Some (uri_parent h (uri_parent h w))
  | None => None
  end.

Definition getPreferenceEditorCaption (preferenceUri : string) : string :=
  let homeUri := getCurrentUserHome h in
  let uri :=
    match homeUri with
    | Some _ =>
        if String.eqb (uri_scheme h preferenceUri) (userStorageScheme h)
        then uri_resolve h (getConfigDirUri h) (uri_path h preferenceUri)
        else preferenceUri
    | None => preferenceUri
    end in
  match homeUri with
  | Some home => tildifyPath h (uri_path h uri) (uri_path h home)
  | None => uri_path h uri
  end.

Definition getFolderSettingsUri (folderUri : option string) : M (option string) :=
  match getConfigUri h folderUri with
  | Some configUri => ret (Some configUri)
  | None =>
      match getContainingConfigUri h folderUri with
      | Some configUri => emit (CreateFile configUri) ;;; ret (Some configUri)
      | None => ret None
      end
  end.

(** The fields [getFoldersPreferencesEditor] assigns (the click callback,
  a closure over this container, is not represented). *)
Definition as_folder_editor (settingsUri : string) (folderUri : option string)
           (w : PreferencesEditorWidget) : PreferencesEditorWidget :=
  {| scope := Some Folder;
     title := {| label := "Folder";
                 caption := "Folder Preferences: " ++ getPreferenceEditorCaption settingsUri;
                 iconClass := iconClass (title w);
                 clickableText := Some (uri_displayName h folderUri);
                 clickableTextTooltip :=
                   Some "Click to manage preferences in another folder" |};
     saveable := saveable w |}.

Definition getFoldersPreferencesEditor (folderUri : option string) : M (option WidgetRef) :=
  if saved h then
    settingsUri <- getFolderSettingsUri folderUri ;;
    match settingsUri with
    | Some uri =>
        foldersPreferences <- getOrCreateByUri uri ;;
        modify foldersPreferences (as_folder_editor uri folderUri) ;;;
        ret (Some foldersPreferences)
    | None => ret None
    end
  else ret None.

Definition closeFoldersPreferenceEditorWidget : M unit :=
  st <- get ;;
  match foldersPreferenceEditorWidget st with
  | Some w =>
      close w ;;;
      dispose w ;;;
      set_foldersPreferenceEditorWidget None
  | None => ret tt
  end.

(** [a || b || c] on optional widgets. *)
Definition first_of (a b c : option WidgetRef) : option WidgetRef :=
  match a with
  | Some _ => a
  | None => match b with Some _ => b | None => c end
  end.

(** The test that guards the replacement of the Folder editor. *)
Definition must_replace (st : State) (newFolderUri : option string) : bool :=
  match foldersPreferenceEditorWidget st with
  | None => true
  | Some w =>
      match newFolderUri with
      | Some f => negb (String.eqb (uri_parent h (uri_parent h w)) f)
      | None => true
      end
  end.

Definition refreshFoldersPreferencesEditorWidget (currentFolderUri : option string)
  : M unit :=
  let folders := tryGetRoots h in
  let newFolderUri := or_else currentFolderUri (hd_error folders) in
  newFoldersPreferenceEditorWidget <- getFoldersPreferencesEditor newFolderUri ;;
  st <- get ;;
  match newFoldersPreferenceEditorWidget with
  | Some w =>
      if must_replace st newFolderUri then
        addWidget w (first_of (foldersPreferenceEditorWidget st)
                              (workspacePreferenceEditorWidget st)
                              (userPreferenceEditorWidget st)) ;;;
        closeFoldersPreferenceEditorWidget ;;;
        set_foldersPreferenceEditorWidget (Some w) ;;;
        emit (FolderPreferenceEditorUriChanged w)
      else ret tt
  | None => ret tt
  end.

(** [activatePreferenceEditor]: the first tab of that scope is raised. *)
Definition activatePreferenceEditor (preferenceScope : PreferenceScope) : M unit :=
  st <- get ;;
  match List.find (fun w => match scope (deref (store st) w) with
                            | Some sc => scope_eqb sc preferenceScope
                            | None => false
                            end) (widgets st) with
  | Some w => emit (ActivateWidget w)
  | None => ret tt
  end.

End Host.

(** The settings URI [getFoldersPreferencesEditor] opens for a folder, if any. *)
Definition settings_uri (h : Host) (folderUri : option string) : option string :=
  if saved h then
    match getConfigUri h folderUri with
    | Some uri => Some uri
    | None => getContainingConfigUri h folderUri
    end
  else None.

(** The folder a call of [refreshFoldersPreferencesEditorWidget] aims at. *)
Definition target_folder (h : Host) (currentFolderUri : option string) : option string :=
  or_else currentFolderUri (hd_error (tryGetRoots h)).

(** What replaces the Folder editor by the widget [w]: the body of the
  conditional of [refreshFoldersPreferencesEditorWidget]. *)
Definition replace_folder_editor (w : WidgetRef) : M unit :=
  st <- get ;;
  addWidget w (first_of (foldersPreferenceEditorWidget st)
                        (workspacePreferenceEditorWidget st)
                        (userPreferenceEditorWidget st)) ;;;
  closeFoldersPreferenceEditorWidget ;;;
  set_foldersPreferenceEditorWidget (Some w) ;;;
  emit (FolderPreferenceEditorUriChanged w).

(** The effects issued between two states of one run. *)
Definition emitted_since (before after : State) : list Effect :=
  skipn (List.length (effects before)) (effects after).

Definition is_folder_tab (s : Store) (w : WidgetRef) : bool :=
  match scope (deref s w) with
  | Some Folder => true
  | _ => false
  end.

(** The Folder-scope tabs of the panel. *)
Definition folder_tabs (st : State) : list WidgetRef :=
  filter (is_folder_tab (store st)) (widgets st).

End EditorsContainer.

(** ** PreferencesContainer *)

Module Container.

Import Widgets Services.

Inductive Effect :=
| Warn (message : string)
| PreferenceSet (preferenceName preferenceValue : option string)
  (scope : option PreferenceScope) (resourceUri : string)
| Save (w : WidgetRef)
| DirtyChanged
| TrackableWidgetsChanged (ws : list WidgetRef).

Record State := {
  currentEditor : option WidgetRef;
  editors : list WidgetRef;
  preferenceScope : PreferenceScope;
  editorsContainer : EditorsContainer.State;
  effects : list Effect              (* oldest first *)
}.

(** The container as its constructor leaves it, around an editors container. *)
Definition initial (ec : EditorsContainer.State) : State := {|
  currentEditor := None;
  editors := [];
  preferenceScope := User;
  editorsContainer := ec;
  effects := []
|}.

Definition widget (st : State) (w : WidgetRef) : PreferencesEditorWidget :=
  deref (EditorsContainer.store (editorsContainer st)) w.

Definition emit (e : Effect) (st : State) : State := {|
  currentEditor := currentEditor st;
  editors := editors st;
  preferenceScope := preferenceScope st;
  editorsContainer := editorsContainer st;
  effects := effects st ++ [e]
|}.

Definition set_preferenceScope (sc : PreferenceScope) (st : State) : State := {|
  currentEditor := currentEditor st;
  editors := editors st;
  preferenceScope := sc;
  editorsContainer := editorsContainer st;
  effects := effects st
|}.

Definition set_currentEditor (e : option WidgetRef) (st : State) : State := {|
  currentEditor := e;
  editors := editors st;
  preferenceScope := preferenceScope st;
  editorsContainer := editorsContainer st;
  effects := effects st
|}.

Definition set_editors (es : list WidgetRef) (st : State) : State := {|
  currentEditor := currentEditor st;
  editors := es;
  preferenceScope := preferenceScope st;
  editorsContainer := editorsContainer st;
  effects := effects st
|}.

(** Run a method of the editors container. *)
Definition on_editorsContainer (m : EditorsContainer.M unit) (st : State) : State := {|
  currentEditor := currentEditor st;
  editors := editors st;
  preferenceScope := preferenceScope st;
  editorsContainer := EditorsContainer.exec m (editorsContainer st);
  effects := effects st
|}.

(** [get autoSave]. *)
Definition autoSave (st : State) : AutoSave :=
  if existsb (fun editor => match Widgets.autoSave (saveable (widget st editor)) with
                            | AutoSaveOn => true
                            | AutoSaveOff => false
                            end) (editors st)
  then AutoSaveOn else AutoSaveOff.

(** [get dirty]. *)
Definition dirty (st : State) : bool :=
  existsb (fun editor => Widgets.dirty (saveable (widget st editor))) (editors st).

(** [save()]. *)
Definition save (st : State) : State :=
  fold_left (fun acc editor => emit (Save editor) acc) (editors st) st.

(** The object a selection event carries, as its keys are enumerated. *)
Definition Selection := list (string * string).

Fixpoint selection_get (k : string) (value : Selection) : option string :=
  match value with
  | [] => None
  | (k', v) :: rest => if String.eqb k' k then Some v else selection_get k rest
  end.

Definition unsaved_warning : string := "Preferences editor(s) has/have unsaved changes".

(** The listener on [treeWidget.onPreferenceSelected]. *)
Definition onPreferenceSelected (value : Selection) (st : State) : State :=
  let preferenceName := hd_error (map fst value) in
  let preferenceValue :=
    match preferenceName with
    | Some name => selection_get name value
    | None => None
    end in
  if dirty st then emit (Warn unsaved_warning) st
  else match currentEditor st with
       | Some editor =>
           emit (PreferenceSet preferenceName preferenceValue
                               (scope (widget st editor)) editor) st
       | None => st
       end.

(** *** The listener on [editorsContainer.onEditorChanged]

  The listener is a sequence of statements. To tell in which order they
  run, a run keeps, beside the state, the statements executed so far, each
  with the state it left. *)

Inductive Step :=
| Saved (w : WidgetRef)                           (* [w.saveable.save()] *)
| ScopeAssigned (sc : PreferenceScope)            (* [this.preferenceScope = sc] *)
| CurrentEditorAssigned (e : option WidgetRef).   (* [this.currentEditor = e] *)

Record Run := {
  now : State;
  history : list (Step * State)      (* oldest first *)
}.

Definition start (st : State) : Run := {| now := st; history := [] |}.

(** A statement: it may throw ([None]). *)
Definition Statement := Run -> option Run.

Definition perform (s : Step) (f : State -> State) : Statement := fun r =>
  let st' := f (now r) in
  Some {| now := st'; history := (history r ++ [(s, st')])%list |}.

Definition do_save (w : WidgetRef) : Statement :=
  perform (Saved w) (emit (Save w)).

Definition assign_preferenceScope (sc : PreferenceScope) : Statement :=
  perform (ScopeAssigned sc) (set_preferenceScope sc).

Definition assign_currentEditor (e : option WidgetRef) : Statement :=
  perform (CurrentEditorAssigned e) (set_currentEditor e).

Definition skip : Statement := fun r => Some r.

(** The [TypeError] of reading [editor.editor] on [undefined]. *)
Definition throw_TypeError : Statement := fun _ => None.

Definition then_ (a b : Statement) : Statement := fun r =>
  match a r with
  | Some r' => b r'
  | None => None
  end.

Definition scope_of_focus (editor : option WidgetRef) (st : State) : PreferenceScope :=
  match editor with
  | Some e => scope_or_user (scope (widget st e))
  | None => User
  end.

(** The body of the listener, statement after statement. *)
Definition onEditorChanged_run (editor : option WidgetRef) : Statement :=
  then_ (fun r =>
           match currentEditor (now r) with
           | Some current =>
               match editor with
               | Some e =>
                   if negb (String.eqb current e) then do_save current r else skip r
               | None => throw_TypeError r
               end
           | None => skip r
           end)
 (then_ (fun r => assign_preferenceScope (scope_of_focus editor (now r)) r)
        (assign_currentEditor editor)).

(** The listener on [editorsContainer.onEditorChanged], as a change of the
  container. *)
Definition onEditorChanged (editor : option WidgetRef) (st : State) : option State :=
  option_map now (onEditorChanged_run editor (start st)).

Definition doActivatePreferenceEditor (sc : PreferenceScope) (st : State) : State :=
  on_editorsContainer (EditorsContainer.activatePreferenceEditor sc)
                      (set_preferenceScope sc st).

Definition mem (w : WidgetRef) (ws : list WidgetRef) : bool :=
  existsb (String.eqb w) ws.

(** [handleEditorsChanged]: the only writer of [editors]. *)
Definition handleEditorsChanged (st : State) : State :=
  let currentEditors := EditorsContainer.widgets (editorsContainer st) in
  let added :=
    fold_left (fun acc editor => if mem editor acc then acc else (acc ++ [editor])%list)
              currentEditors (editors st) in
  let kept := filter (fun editor => mem editor currentEditors) added in
  let st1 := emit (TrackableWidgetsChanged kept) (set_editors kept st) in
  doActivatePreferenceEditor (preferenceScope st1) st1.

Section Host.

Variable h : Host.

(** [refreshFoldersPreferencesEditor]. *)
Definition refreshFoldersPreferencesEditor (st : State) : State :=
  let roots := tryGetRoots h in
  if (List.length roots =? 0)%nat then
    on_editorsContainer EditorsContainer.closeFoldersPreferenceEditorWidget st
  else if negb (existsb (fun r =>
                  match EditorsContainer.activeFolder h (editorsContainer st) with
                  | Some active => String.eqb r active
                  | None => false
                  end) roots)
  then on_editorsContainer
         (EditorsContainer.refreshFoldersPreferencesEditorWidget h (hd_error roots)) st
  else st.

(** The listener on [workspaceService.onWorkspaceChanged]; the service
  already answers the new roots. *)
Definition onWorkspaceChanged (st : State) : State :=
  refreshFoldersPreferencesEditor st.

End Host.

End Container.

(** ** Sample hosts and states *)

Module Samples.

Import Widgets Services.

(** The parent of a URI given as a string: its last path segment dropped. *)
Definition parent_of (uri : string) : string :=
  String.concat "/" (removelast (JS.split "/" uri)).

Definition base_name (uri : option string) : string :=
  match uri with
  | Some u => last (JS.split "/" u) ""
  | None => ""
  end.

(** A saved multi-root workspace with the single root [file:///ws/a]. *)
Definition host_saved : Host := {|
  uri_parent := parent_of;
  uri_displayName := base_name;
  uri_scheme := fun _ => "file";
  uri_path := fun u => u;
  uri_resolve := fun a b => a ++ b;
  tildifyPath := fun p _ => p;
  userStorageScheme := "user_storage";
  tryGetRoots := ["file:///ws/a"];
  saved := true;
  getConfigUri := fun folder =>
    match folder with
    | Some f => Some (f ++ "/.theia/settings.json")
    | None => None
    end;
  getContainingConfigUri := fun _ => None;
  getCurrentUserHome := None;
  getConfigDirUri := "file:///home/.theia"
|}.

(** The same root opened as a plain folder: the workspace is not saved. *)
Definition host_unsaved : Host := {|
  uri_parent := parent_of;
  uri_displayName := base_name;
  uri_scheme := fun _ => "file";
  uri_path := fun u => u;
  uri_resolve := fun a b => a ++ b;
  tildifyPath := fun p _ => p;
  userStorageScheme := "user_storage";
  tryGetRoots := ["file:///ws/a"];
  saved := false;
  getConfigUri := fun folder =>
    match folder with
    | Some f => Some (f ++ "/.theia/settings.json")
    | None => None
    end;
  getContainingConfigUri := fun _ => None;
  getCurrentUserHome := None;
  getConfigDirUri := "file:///home/.theia"
|}.

(** The saved workspace once its last root is removed. *)
Definition host_no_root : Host := {|
  uri_parent := parent_of;
  uri_displayName := base_name;
  uri_scheme := fun _ => "file";
  uri_path := fun u => u;
  uri_resolve := fun a b => a ++ b;
  tildifyPath := fun p _ => p;
  userStorageScheme := "user_storage";
  tryGetRoots := [];
  saved := true;
  getConfigUri := fun _ => None;
  getContainingConfigUri := fun _ => None;
  getCurrentUserHome := None;
  getConfigDirUri := "file:///home/.theia"
|}.

Definition user_settings : WidgetRef := "user_storage:settings.json".

Definition folder_settings : WidgetRef := "file:///ws/a/.theia/settings.json".

Definition editor_widget (sc : PreferenceScope) (name : string) (is_dirty : bool)
  : PreferencesEditorWidget := {|
  scope := Some sc;
  title := {| label := name; caption := name; iconClass := "";
              clickableText := None; clickableTextTooltip := None |};
  saveable := {| dirty := is_dirty; autoSave := AutoSaveOff |}
|}.

(** An attached editors container showing the User editor only. *)
Definition ec_user_only : EditorsContainer.State := {|
  EditorsContainer.userPreferenceEditorWidget := Some user_settings;
  EditorsContainer.workspacePreferenceEditorWidget := None;
  EditorsContainer.foldersPreferenceEditorWidget := None;
  EditorsContainer.widgets := [user_settings];
  EditorsContainer.store := [(user_settings, editor_widget User "User" false)];
  EditorsContainer.effects := []
|}.

(** The same container once the Folder editor of [file:///ws/a] is open. *)
Definition ec_with_folder : EditorsContainer.State :=
  EditorsContainer.exec
    (EditorsContainer.refreshFoldersPreferencesEditorWidget host_saved None)
    ec_user_only.

(** Three editors with the given dirty flags, all tracked, the first focused. *)
Definition three_editors (d1 d2 d3 : bool) : Container.State := {|
  Container.currentEditor := Some "a";
  Container.editors := ["a"; "b"; "c"];
  Container.preferenceScope := User;
  Container.editorsContainer := {|
    EditorsContainer.userPreferenceEditorWidget := Some "a";
    EditorsContainer.workspacePreferenceEditorWidget := Some "b";
    EditorsContainer.foldersPreferenceEditorWidget := Some "c";
    EditorsContainer.widgets := ["a"; "b"; "c"];
    EditorsContainer.store :=
      [("a", editor_widget User "User" d1);
       ("b", editor_widget Workspace "Workspace" d2);
       ("c", editor_widget Folder "Folder" d3)];
    EditorsContainer.effects := []
  |};
  Container.effects := []
|}.

End Samples.

(** ** Further methods of the three classes *)

Module Further.

Import Widgets Services.

(** The characters after the first occurrence of [c] (none when there is
  no occurrence). *)
Fixpoint suffix_after (c : ascii) (s : string) : string :=
  match s with
  | EmptyString => EmptyString
  | String a r => if Ascii.eqb a c then r else suffix_after c r
  end.

Fixpoint close_all (ws : list WidgetRef) : EditorsContainer.M unit :=
  match ws with
  | [] => EditorsContainer.ret tt
  | w :: rest =>
      EditorsContainer.bind (EditorsContainer.close w) (fun _ => close_all rest)
  end.

(** [PreferencesEditorsContainer.onCloseRequest]: every tab of the panel, as
  listed when the request arrives, is closed (what [super.onCloseRequest]
  then does with the panel itself is the toolkit's). *)
Definition onCloseRequest : EditorsContainer.M unit :=
  EditorsContainer.bind EditorsContainer.get
                        (fun st => close_all (EditorsContainer.widgets st)).

(** A schema with a key that has no dot beside keys that have one. *)
Definition schema_dotless : TreeWidget.Properties :=
  [("editor", TreeWidget.pdp0); ("editor.fontSize", TreeWidget.pdp0);
   ("plain", TreeWidget.pdp0)].

End Further.

(** * Properties of the string fragment *)

Module JSFacts.

Import JS.

Lemma split_nonempty c s : split c s <> [].
Proof.
  destruct s as [|a r]; simpl; [discriminate|].
  destruct (Ascii.eqb a c); [discriminate|].
  destruct (split c r); discriminate.
Qed.

Lemma split_head c s : hd_error (split c s) = Some (prefix_before c s).
Proof.
  induction s as [|a r IH]; simpl; [reflexivity|].
  destruct (Ascii.eqb a c); [reflexivity|].
  destruct (split c r) as [|h t]; simpl in *; congruence.
Qed.

Lemma split_length_contains c s :
  (1 < List.length (split c s))%nat <-> contains c s.
Proof.
  unfold contains. induction s as [|a r IH]; simpl.
  - split; [lia | tauto].
  - destruct (Ascii.eqb_spec a c) as [->|Hne].
    + split; [auto|]. intros _. simpl.
      pose proof (split_nonempty c r). destruct (split c r); simpl; [congruence | lia].
    + destruct (split c r) as [|h t] eqn:E.
      * exfalso. eapply split_nonempty; eauto.
      * simpl in *. rewrite IH. split; [auto | intros [H|H]; [congruence | auto]].
Qed.

Lemma indexOf_from_shift c s i :
  contains c s ->
  indexOf_from c s i = (i + Z.of_nat (String.length (prefix_before c s)))%Z.
Proof.
  unfold contains. revert i. induction s as [|a r IH]; simpl; intros i H; [tauto|].
  destruct (Ascii.eqb_spec a c) as [->|Hne]; simpl; [lia|].
  destruct H as [H|H]; [congruence|].
  rewrite IH by assumption. lia.
Qed.

Lemma indexOf_absent c s i : ~ contains c s -> indexOf_from c s i = (-1)%Z.
Proof.
  unfold contains. revert i. induction s as [|a r IH]; simpl; intros i H; [reflexivity|].
  destruct (Ascii.eqb_spec a c) as [->|Hne]; [tauto|].
  apply IH. tauto.
Qed.

Lemma prefix_before_length c s :
  (String.length (prefix_before c s) <= String.length s)%nat.
Proof.
  induction s as [|a r IH]; simpl; [lia|].
  destruct (Ascii.eqb a c); simpl; lia.
Qed.

Lemma substring_prefix_before c s :
  String.substring 0 (String.length (prefix_before c s)) s = prefix_before c s.
Proof.
  induction s as [|a r IH]; simpl; [reflexivity|].
  destruct (Ascii.eqb a c); simpl; [reflexivity|]. now rewrite IH.
Qed.

Lemma substring_all s : String.substring 0 (String.length s) s = s.
Proof. induction s as [|a r IH]; simpl; [reflexivity | now rewrite IH]. Qed.

(** With a dot in the key, [substring(0, indexOf('.'))] is the first
  segment of [split('.')]. *)
Lemma substring_indexOf c s :
  contains c s -> substring s 0 (indexOf c s) = prefix_before c s.
Proof.
  intros H. unfold substring, indexOf, clamp.
  rewrite indexOf_from_shift by assumption.
  pose proof (prefix_before_length c s) as Hle.
  replace (Z.to_nat (Z.min (Z.max 0 0) (Z.of_nat (String.length s)))) with 0%nat by lia.
  replace (Z.to_nat (Z.min (Z.max (0 + Z.of_nat (String.length (prefix_before c s))) 0)
                           (Z.of_nat (String.length s))))
    with (String.length (prefix_before c s)) by lia.
  rewrite Nat.min_0_l, Nat.max_0_l, Nat.sub_0_r.
  apply substring_prefix_before.
Qed.

Lemma length_append (a b : string) :
  String.length (a ++ b) = (String.length a + String.length b)%nat.
Proof. induction a as [|x a IH]; simpl; [reflexivity | now rewrite IH]. Qed.

Lemma append_assoc (a b c : string) : (a ++ b) ++ c = a ++ b ++ c.
Proof. induction a as [|x a IH]; simpl; [reflexivity | now rewrite IH]. Qed.

Lemma append_inj_l (a b s : string) : a ++ s = b ++ s -> a = b.
Proof.
  intros H.
  assert (Hlen : String.length a = String.length b).
  { apply (f_equal String.length) in H.
    rewrite !length_append in H. lia. }
  revert b H Hlen. induction a as [|x a IH]; intros [|y b] H Hlen;
    simpl in *; try discriminate; [reflexivity|].
  injection H as -> H. f_equal. apply IH; [assumption | lia].
Qed.

End JSFacts.

(** * Properties of the tree widget *)

Module TreeFacts.

Import JS JSFacts TreeWidget.

Lemma set_add_In x s y : In y (set_add x s) <-> y = x \/ In y s.
Proof.
  unfold set_add. destruct (existsb (String.eqb x) s) eqn:E.
  - split; [auto|]. intros [->|H]; [|assumption].
    apply existsb_exists in E as (z & Hz & Hxz).
    apply String.eqb_eq in Hxz. now subst.
  - rewrite in_app_iff. simpl. intuition (subst; auto).
Qed.

Lemma set_add_NoDup x s : NoDup s -> NoDup (set_add x s).
Proof.
  intros H. unfold set_add. destruct (existsb (String.eqb x) s) eqn:E; [assumption|].
  apply NoDup_rev in H. rewrite <- (rev_involutive (s ++ [x])).
  apply NoDup_rev. rewrite rev_app_distr. simpl. constructor; [|assumption].
  rewrite <- in_rev. intros Hin.
  assert (existsb (String.eqb x) s = true); [|congruence].
  apply existsb_exists. exists x. split; [assumption | apply String.eqb_refl].
Qed.

Lemma collect_groups_In names : forall from g,
  In g (collect_groups names from) <->
  In g from \/ exists k, In k names /\ truthy k = true /\ has_group k = true /\ group_of k = g.
Proof.
  unfold collect_groups.
  induction names as [|k names IH]; intros from g; simpl.
  - split; [auto | intros [H|(k & [] & _)]; assumption].
  - rewrite IH. unfold collect_group.
    destruct (truthy k) eqn:Et; [destruct (has_group k) eqn:Eg|].
    + rewrite set_add_In. split.
      * intros [[->|H]|(k' & Hk' & H)]; eauto 8.
      * intros [H|(k' & [->|Hk'] & Ht & Hg & <-)]; eauto 8.
    + split.
      * intros [H|(k' & Hk' & H)]; eauto 8.
      * intros [H|(k' & [->|Hk'] & Ht & Hg & <-)]; [auto | congruence | eauto 8].
    + split.
      * intros [H|(k' & Hk' & H)]; eauto 8.
      * intros [H|(k' & [->|Hk'] & Ht & Hg & <-)]; [auto | congruence | eauto 8].
Qed.

Lemma collect_groups_NoDup names : forall from,
  NoDup from -> NoDup (collect_groups names from).
Proof.
  unfold collect_groups.
  induction names as [|k names IH]; intros from H; simpl; [assumption|].
  apply IH. unfold collect_group.
  destruct (truthy k); [destruct (has_group k)|]; auto using set_add_NoDup.
Qed.

(** The old group names are never dropped by the first loop. *)
Lemma collect_groups_keeps names from g :
  In g from -> In g (collect_groups names from).
Proof. intros H. apply collect_groups_In. now left. Qed.

Lemma first_segment_prefix k : first_segment k = Some (prefix_before "." k).
Proof.
  unfold first_segment, split_limit.
  pose proof (split_head "." k) as H.
  destruct (split "." k); simpl in *; [discriminate | assumption].
Qed.

Lemma has_group_contains k : has_group k = true <-> contains "." k.
Proof.
  unfold has_group. rewrite Nat.ltb_lt. apply split_length_contains.
Qed.

Lemma group_of_prefix k : has_group k = true -> group_of k = prefix_before "." k.
Proof.
  intros H. apply has_group_contains in H. now apply substring_indexOf.
Qed.

Lemma has_group_truthy k : has_group k = true -> truthy k = true.
Proof. destruct k; [discriminate | reflexivity]. Qed.

Lemma members_In (isSectionName : string -> bool) g names k :
  In k (members isSectionName g names) <->
  In k names /\ prefix_before "." k = g /\ isSectionName k = false.
Proof.
  unfold members. rewrite filter_In. unfold is_member.
  rewrite first_segment_prefix, andb_true_iff, String.eqb_eq, negb_true_iff.
  tauto.
Qed.

Section Host.

Variable localeCompare : string -> string -> Z.
Variable isSectionName : string -> bool.
Variable toLocaleUpperCase : string -> string.

Local Abbreviation insert := (insert localeCompare).
Local Abbreviation array_sort := (array_sort localeCompare).
Local Abbreviation members := (members isSectionName).
Local Abbreviation make_group := (make_group localeCompare isSectionName toLocaleUpperCase).
Local Abbreviation initializeModel := (initializeModel localeCompare isSectionName toLocaleUpperCase).

Lemma insert_perm x l : Permutation (insert x l) (x :: l).
Proof.
  induction l as [|y l IH]; simpl; [reflexivity|].
  destruct (sort localeCompare x y <=? 0)%Z; [reflexivity|].
  rewrite IH. apply perm_swap.
Qed.

Lemma array_sort_perm l : Permutation (array_sort l) l.
Proof.
  induction l as [|x l IH]; simpl; [reflexivity|].
  rewrite insert_perm. now constructor.
Qed.

Lemma array_sort_In l x : In x (array_sort l) <-> In x l.
Proof.
  split; apply Permutation_in; [|symmetry]; apply array_sort_perm.
Qed.

Lemma array_sort_NoDup l : NoDup l -> NoDup (array_sort l).
Proof.
  intros H. eapply Permutation_NoDup; [symmetry; apply array_sort_perm | assumption].
Qed.

Lemma array_sort_length l : List.length (array_sort l) = List.length l.
Proof. apply Permutation_length, array_sort_perm. Qed.

Lemma leaf_ids_make_group names g :
  leaf_ids (make_group names g) = array_sort (members g names).
Proof.
  unfold leaf_ids, make_group. simpl. rewrite map_map. simpl. apply map_id.
Qed.

Lemma groups_of_initializeModel schema st :
  groups_of (initializeModel schema st) =
  map (make_group (keys schema))
      (array_sort (collect_groups (keys schema) (preferencesGroupNames st))).
Proof. reflexivity. Qed.

Lemma initializeModel_names_NoDup schema st :
  NoDup (preferencesGroupNames st) ->
  NoDup (preferencesGroupNames (initializeModel schema st)).
Proof. intros H. simpl. now apply collect_groups_NoDup. Qed.

Lemma group_ids_NoDup schema st :
  NoDup (preferencesGroupNames st) ->
  NoDup (map group_id (groups_of (initializeModel schema st))).
Proof.
  intros H. rewrite groups_of_initializeModel, map_map. simpl.
  apply Finite.Injective_map_NoDup.
  - intros a b Hab. now apply append_inj_l in Hab.
  - now apply array_sort_NoDup, collect_groups_NoDup.
Qed.

End Host.

(** The label is the capitalized name whenever upper-casing the name and
  upper-casing its first character agree on the first code unit. *)
Lemma group_label_spec upper group count :
  substring (upper group) 0 1 = upper (substring group 0 1) ->
  group_label upper group count = spec_label upper group count.
Proof.
  intros H. unfold group_label, spec_label, capitalized.
  now rewrite H, append_assoc.
Qed.

(** C4. In the tree built by [initializeModel], a key with at least one dot
  (its [split('.')] has a first segment [seg] and a non-empty rest) is a
  leaf of exactly one group node, the one whose id is built from [seg], and
  it occurs there once; a key that is a section name is a leaf of no group
  (so a dotted key is listed unless it is itself a section name). The group
  nodes have pairwise distinct ids. *)
Theorem C4_dotted_key_under_its_group :
  forall (localeCompare : string -> string -> Z) (isSectionName : string -> bool)
         (toLocaleUpperCase : string -> string)
         (schema : Properties) (st : State) (k seg : string) (rest : list string),
    NoDup (keys schema) ->
    NoDup (preferencesGroupNames st) ->
    In k (keys schema) ->
    split "." k = seg :: rest ->
    rest <> [] ->
    let gs := groups_of (initializeModel localeCompare isSectionName toLocaleUpperCase schema st) in
    NoDup (map group_id gs) /\
    (isSectionName k = false ->
     exists g, In g gs /\ group_id g = seg ++ "-id" /\
               count_occ string_dec (leaf_ids g) k = 1%nat /\
               forall g', In g' gs -> In k (leaf_ids g') -> g' = g) /\
    (forall k' g', isSectionName k' = true -> In g' gs -> ~ In k' (leaf_ids g')).
Proof.
  intros cmp isSec upper schema st k seg rest Hkeys Hnames Hk Hsplit Hrest gs.
  assert (Hseg : prefix_before "." k = seg).
  { pose proof (split_head "." k) as H. rewrite Hsplit in H. simpl in H. congruence. }
  assert (Hgrp : has_group k = true).
  { unfold has_group. rewrite Hsplit. destruct rest; [congruence | reflexivity]. }
  subst gs. split; [now apply group_ids_NoDup|].
  rewrite groups_of_initializeModel. split.
  - intros Hsec.
    exists (make_group cmp isSec upper (keys schema) seg). repeat split.
    + apply in_map, (array_sort_In cmp), collect_groups_In. right.
      exists k. rewrite <- Hseg. auto using has_group_truthy, group_of_prefix.
    + rewrite leaf_ids_make_group.
      apply NoDup_count_occ'.
      * apply array_sort_NoDup, NoDup_filter, Hkeys.
      * apply (array_sort_In cmp), (members_In isSec). auto.
    + intros g' Hg' Hin. apply in_map_iff in Hg' as (n & <- & _).
      rewrite leaf_ids_make_group in Hin.
      apply (array_sort_In cmp), (members_In isSec) in Hin as (_ & Hn & _). congruence.
  - intros k' g' Hsec Hg' Hin. apply in_map_iff in Hg' as (n & <- & _).
    rewrite leaf_ids_make_group in Hin.
    apply (array_sort_In cmp), (members_In isSec) in Hin as (_ & _ & Hn). congruence.
Qed.

Lemma C4_witness :
  let gs := groups_of (initializeModel asciiCompare noSection latinUpper schema3 initial) in
  NoDup (map group_id gs) /\
  (noSection "editor.fontSize" = false ->
   exists g, In g gs /\ group_id g = "editor" ++ "-id" /\
             count_occ string_dec (leaf_ids g) "editor.fontSize" = 1%nat /\
             forall g', In g' gs -> In "editor.fontSize" (leaf_ids g') -> g' = g) /\
  (forall k' g', noSection k' = true -> In g' gs -> ~ In k' (leaf_ids g')).
Proof.
  apply (C4_dotted_key_under_its_group asciiCompare noSection latinUpper schema3 initial
           "editor.fontSize" "editor" ["fontSize"]).
  - repeat constructor; simpl; intuition discriminate.
  - constructor.
  - simpl; auto.
  - reflexivity.
  - discriminate.
Defined.

(** C5. The label takes the first code unit of the upper-cased name, not the
  capital of the first character. On every host that upper-cases a sharp s
  to SS, a group named with a leading sharp s is labelled [Seta (1)], where
  the name with its first character capitalized is [SSeta (1)]. *)
Theorem C5_label_of_a_group_with_a_two_letter_capital :
  forall (localeCompare : string -> string -> Z) (isSectionName : string -> bool)
         (toLocaleUpperCase : string -> string),
    toLocaleUpperCase sharp_group = "SSETA" ->
    toLocaleUpperCase (String sharp_s "") = "SS" ->
    isSectionName (sharp_group ++ ".x") = false ->
    let st := initializeModel localeCompare isSectionName toLocaleUpperCase
                              schema_sharp initial in
    map group_id (groups_of st) = [sharp_group ++ "-id"] /\
    map group_name (groups_of st) = ["Seta (1)"] /\
    map (fun g => spec_label toLocaleUpperCase sharp_group
                             (List.length (group_children g)))
        (groups_of st) = ["SSeta (1)"].
Proof.
  intros cmp isSec upper Hname Hfirst Hsec st. subst st.
  rewrite groups_of_initializeModel.
  change (collect_groups (keys schema_sharp) (preferencesGroupNames initial))
    with [sharp_group].
  change (array_sort cmp [sharp_group]) with [sharp_group].
  assert (Hm : members isSec sharp_group (keys schema_sharp) = [sharp_group ++ ".x"]).
  { unfold members, schema_sharp, keys. cbn [map fst filter]. unfold is_member.
    change (first_segment (sharp_group ++ ".x")) with (Some sharp_group).
    rewrite Hsec, String.eqb_refl. reflexivity. }
  cbn [map]. unfold make_group. cbn [group_id group_name group_children].
  rewrite Hm. unfold group_label, spec_label, capitalized.
  change (substring sharp_group 0 1) with (String sharp_s "").
  rewrite Hname, Hfirst. repeat split.
Qed.

Lemma C5_witness :
  let st := initializeModel asciiCompare noSection latinUpper schema_sharp initial in
  map group_id (groups_of st) = [sharp_group ++ "-id"] /\
  map group_name (groups_of st) = ["Seta (1)"] /\
  map (fun g => spec_label latinUpper sharp_group (List.length (group_children g)))
      (groups_of st) = ["SSeta (1)"].
Proof.
  apply (C5_label_of_a_group_with_a_two_letter_capital asciiCompare noSection latinUpper);
    reflexivity.
Defined.

(** ** Rebuilding after a schema change *)

Lemma rebuild_keeps_old_groups cmp isSec upper schema st n :
  In n (preferencesGroupNames st) ->
  exists g, In g (groups_of (initializeModel cmp isSec upper schema st)) /\
            group_id g = n ++ "-id".
Proof.
  intros H. exists (make_group cmp isSec upper (keys schema) n). split; [|reflexivity].
  rewrite groups_of_initializeModel.
  now apply in_map, (array_sort_In cmp), collect_groups_keeps.
Qed.

Lemma rebuild_leaves_from_schema cmp isSec upper schema st g k :
  In g (groups_of (initializeModel cmp isSec upper schema st)) ->
  In k (leaf_ids g) -> In k (keys schema).
Proof.
  rewrite groups_of_initializeModel. intros Hg Hk.
  apply in_map_iff in Hg as (n & <- & _). rewrite leaf_ids_make_group in Hk.
  now apply (array_sort_In cmp), (members_In isSec) in Hk.
Qed.

(** C6. The rebuild on a schema change does not start from the current
  schema alone: after the schema { old.setting } is replaced by
  { editor.fontSize }, the tree still shows the group [Old], now empty,
  next to [Editor]; a widget that only ever saw the second schema shows
  [Editor] alone. *)
Theorem C6_stale_group_survives_rebuild :
  let st1 := initializeModel asciiCompare noSection latinUpper schema_old initial in
  let st2 := initializeModel asciiCompare noSection latinUpper schema_new st1 in
  map group_name (groups_of st1) = ["Old (1)"] /\
  map group_name (groups_of st2) = ["Editor (1)"; "Old (0)"] /\
  map leaf_ids (groups_of st2) = [["editor.fontSize"]; []] /\
  map group_name (groups_of (initializeModel asciiCompare noSection latinUpper schema_new initial))
  = ["Editor (1)"].
Proof. repeat split. Qed.

(** ** Order of groups and leaves *)

Section Order.

Variable cmp : string -> string -> Z.
Hypothesis cmp_consistent : consistent cmp.

Local Abbreviation le := (collated cmp).

Lemma le_total a b : le a b \/ le b a.
Proof.
  unfold collated. destruct cmp_consistent as [Hanti _].
  destruct (Z_le_gt_dec (cmp a b) 0) as [H|H]; [now left | right].
  assert (cmp b a < 0)%Z by (apply Hanti; lia). lia.
Qed.


Lemma insert_Forall (P : string -> Prop) x l :
  P x -> Forall P l -> Forall P (insert cmp x l).
Proof.
  intros Hx Hl. eapply Permutation_Forall; [symmetry; apply insert_perm|].
  now constructor.
Qed.

Lemma insert_sorted x l :
  StronglySorted le l -> StronglySorted le (insert cmp x l).
Proof.
  induction 1 as [|y l Hl IH Hy]; simpl; [repeat constructor|].
  unfold sort. destruct (cmp x y <=? 0)%Z eqn:E.
  - apply Z.leb_le in E. constructor; [now constructor|].
    constructor; [exact E|].
    eapply Forall_impl; [|exact Hy]. intros z Hz.
    destruct cmp_consistent as [_ Htrans]. exact (Htrans _ _ _ E Hz).
  - apply Z.leb_gt in E. constructor; [assumption|].
    apply insert_Forall; [|assumption].
    destruct (le_total y x) as [H|H]; [assumption | unfold collated in H; lia].
Qed.

Lemma array_sort_sorted l : StronglySorted le (array_sort cmp l).
Proof.
  induction l as [|x l IH]; simpl; [constructor | now apply insert_sorted].
Qed.



End Order.

Lemma collect_groups_permuted ks ks' from :
  NoDup from -> Permutation ks ks' ->
  Permutation (collect_groups ks from) (collect_groups ks' from).
Proof.
  intros Hfrom Hp. apply NoDup_Permutation; try now apply collect_groups_NoDup.
  intros g. rewrite !collect_groups_In.
  split; (intros [H|(k & Hk & H)]; [now left | right; exists k; split; [|exact H]]).
  - eapply Permutation_in; eauto.
  - eapply Permutation_in; [symmetry|]; eauto.
Qed.

Lemma filter_permuted (f : string -> bool) l l' :
  Permutation l l' -> Permutation (filter f l) (filter f l').
Proof.
  induction 1 as [|x l l' _ IH|x y l|l l' l'' _ IH1 _ IH2]; simpl.
  - constructor.
  - destruct (f x); [now constructor | assumption].
  - destruct (f x), (f y); try reflexivity. apply perm_swap.
  - now transitivity (filter f l').
Qed.




(** The reference collation is a consistent comparison function. *)

Lemma lt_irrefl z : ~ String_as_OT.lt z z.
Proof. apply (StrictOrder_Irreflexive (R := String_as_OT.lt)). Qed.

Lemma lt_trans a b c : String_as_OT.lt a b -> String_as_OT.lt b c -> String_as_OT.lt a c.
Proof. apply (StrictOrder_Transitive (R := String_as_OT.lt)). Qed.

Lemma compare_flip x y :
  String_as_OT.compare y x = CompOpp (String_as_OT.compare x y).
Proof.
  destruct (String_as_OT.compare_spec x y) as [Hxy|Hxy|Hxy];
    destruct (String_as_OT.compare_spec y x) as [Hyx|Hyx|Hyx];
    try reflexivity; exfalso; unfold String_as_OT.eq in *; subst;
    first [ eapply lt_irrefl; eassumption
          | eapply lt_irrefl, lt_trans; eassumption ].
Qed.

Lemma compare_le_trans x y z :
  String_as_OT.compare x y <> Gt -> String_as_OT.compare y z <> Gt ->
  String_as_OT.compare x z <> Gt.
Proof.
  intros Hxy Hyz Hxz.
  destruct (String_as_OT.compare_spec x y) as [Exy|Lxy|Lxy]; [| |congruence];
    (destruct (String_as_OT.compare_spec y z) as [Eyz|Lyz|Lyz]; [| |congruence]);
    (destruct (String_as_OT.compare_spec x z) as [Exz|Lxz|Lxz]; try discriminate);
    unfold String_as_OT.eq in *; subst;
    first [ eapply lt_irrefl; eassumption
          | eapply lt_irrefl, lt_trans; eassumption
          | eapply lt_irrefl, lt_trans; [eassumption|]; eapply lt_trans; eassumption ].
Qed.

Lemma asciiCompare_consistent : consistent asciiCompare.
Proof.
  split.
  - intros a b. unfold asciiCompare.
    rewrite (compare_flip (strip_punct a) (strip_punct b)).
    destruct (String_as_OT.compare (strip_punct a) (strip_punct b)); simpl; lia.
  - intros a b c Hab Hbc. unfold asciiCompare in *.
    pose proof (compare_le_trans (strip_punct a) (strip_punct b) (strip_punct c)) as H.
    destruct (String_as_OT.compare (strip_punct a) (strip_punct b));
      destruct (String_as_OT.compare (strip_punct b) (strip_punct c));
      destruct (String_as_OT.compare (strip_punct a) (strip_punct c));
      try lia; exfalso; apply H; congruence.
Qed.






End TreeFacts.

(** * Properties of the editors container *)

Module EditorsFacts.

Import Widgets Services EditorsContainer.

Local Open Scope list_scope.

Lemma find_update_same r f s : find r (update r f s) = Some (f (deref s r)).
Proof.
  unfold deref. induction s as [|[r' w] s IH]; simpl.
  - now rewrite String.eqb_refl.
  - destruct (String.eqb_spec r' r) as [->|Hne]; simpl.
    + now rewrite String.eqb_refl.
    + destruct (String.eqb_spec r' r); [contradiction | exact IH].
Qed.

Lemma find_update_other r r' f s : r' <> r -> find r' (update r f s) = find r' s.
Proof.
  intros Hne. induction s as [|[q w] s IH]; simpl.
  - destruct (String.eqb_spec r r'); [congruence | reflexivity].
  - destruct (String.eqb_spec q r) as [->|Hq]; simpl.
    + destruct (String.eqb_spec r r'); [congruence | reflexivity].
    + destruct (String.eqb_spec q r'); [reflexivity | exact IH].
Qed.

Lemma deref_update_same r f s : deref (update r f s) r = f (deref s r).
Proof. unfold deref at 1. now rewrite find_update_same. Qed.

Lemma deref_update_other r r' f s : r' <> r -> deref (update r f s) r' = deref s r'.
Proof. intros H. unfold deref. now rewrite find_update_other. Qed.

Lemma remove_ref_In w ws x : In x (remove_ref w ws) <-> In x ws /\ x <> w.
Proof.
  unfold remove_ref. rewrite filter_In, negb_true_iff, String.eqb_neq. tauto.
Qed.

Lemma insert_after_In ref w ws x : In x (insert_after ref w ws) <-> x = w \/ In x ws.
Proof.
  induction ws as [|y ws IH]; simpl; [intuition|].
  destruct (String.eqb y ref); simpl; [|rewrite IH]; intuition.
Qed.

Lemma getFoldersPreferencesEditor_result h folderUri st :
  fst (getFoldersPreferencesEditor h folderUri st) = settings_uri h folderUri.
Proof.
  unfold getFoldersPreferencesEditor, getFolderSettingsUri, settings_uri.
  destruct (saved h); [|reflexivity].
  destruct (getConfigUri h folderUri); [reflexivity|].
  destruct (getContainingConfigUri h folderUri); reflexivity.
Qed.

(** A call of [getFoldersPreferencesEditor] leaves the tabs and the three
  editor fields alone; it may create the settings file. *)
Lemma getFoldersPreferencesEditor_frame h folderUri st :
  let st1 := snd (getFoldersPreferencesEditor h folderUri st) in
  userPreferenceEditorWidget st1 = userPreferenceEditorWidget st /\
  workspacePreferenceEditorWidget st1 = workspacePreferenceEditorWidget st /\
  foldersPreferenceEditorWidget st1 = foldersPreferenceEditorWidget st /\
  widgets st1 = widgets st /\
  exists created,
    effects st1 = effects st ++ created /\
    Forall (fun e => exists uri, e = CreateFile uri) created.
Proof.
  unfold getFoldersPreferencesEditor, getFolderSettingsUri.
  destruct (saved h).
  - destruct (getConfigUri h folderUri) as [uri|].
    + cbn. repeat split. exists []. now rewrite app_nil_r.
    + destruct (getContainingConfigUri h folderUri) as [uri|]; cbn; repeat split.
      * exists [CreateFile uri]. split; [reflexivity|]. repeat constructor. now exists uri.
      * exists []. now rewrite app_nil_r.
  - cbn. repeat split. exists []. now rewrite app_nil_r.
Qed.

Lemma getFoldersPreferencesEditor_store h folderUri st uri :
  settings_uri h folderUri = Some uri ->
  store (snd (getFoldersPreferencesEditor h folderUri st))
  = update uri (as_folder_editor h uri folderUri) (update uri (fun w => w) (store st)).
Proof.
  unfold getFoldersPreferencesEditor, getFolderSettingsUri, settings_uri.
  destruct (saved h); [|discriminate].
  destruct (getConfigUri h folderUri) as [u|].
  - intros [= ->]. reflexivity.
  - destruct (getContainingConfigUri h folderUri) as [u|]; [|discriminate].
    intros [= ->]. reflexivity.
Qed.

Lemma must_replace_spec h st folder :
  must_replace h st folder = true <->
  foldersPreferenceEditorWidget st = None \/ activeFolder h st <> folder.
Proof.
  unfold must_replace, activeFolder.
  destruct (foldersPreferenceEditorWidget st) as [w|]; [|tauto].
  destruct folder as [f|].
  - rewrite negb_true_iff, String.eqb_neq. split.
    + intros H. right. congruence.
    + intros [H|H]; [discriminate | congruence].
  - split; [right; discriminate | reflexivity].
Qed.

Lemma refresh_cases h st target :
  let folder := target_folder h target in
  let r := getFoldersPreferencesEditor h folder st in
  exec (refreshFoldersPreferencesEditorWidget h target) st =
  match fst r with
  | Some w => if must_replace h st folder
              then exec (replace_folder_editor w) (snd r)
              else snd r
  | None => snd r
  end.
Proof.
  intros folder r.
  pose proof (getFoldersPreferencesEditor_frame h folder st) as (_ & _ & Hf & _).
  unfold exec, refreshFoldersPreferencesEditorWidget, bind.
  fold (target_folder h target). fold folder. fold r. fold r in Hf.
  destruct r as [[w|] st1]; cbn [fst snd] in *; [|reflexivity].
  unfold must_replace, get. cbn iota beta. rewrite Hf.
  unfold replace_folder_editor, bind, get.
  destruct (foldersPreferenceEditorWidget st) eqn:E; [destruct folder|];
    rewrite ?Hf, ?E; try reflexivity.
  destruct (negb _); reflexivity.
Qed.

Lemma replace_folder_editor_spec w st :
  let st' := exec (replace_folder_editor w) st in
  foldersPreferenceEditorWidget st' = Some w /\
  store st' = store st /\
  effects st' =
    effects st
    ++ match foldersPreferenceEditorWidget st with
       | Some old => [CloseWidget old; DisposeWidget old]
       | None => []
       end
    ++ [FolderPreferenceEditorUriChanged w].
Proof.
  unfold exec, replace_folder_editor, closeFoldersPreferenceEditorWidget.
  destruct st as [u ws [old|] tabs sto eff]; cbn; repeat split.
  now rewrite <- !app_assoc.
Qed.

Lemma emitted_since_app before after l :
  effects after = effects before ++ l -> emitted_since before after = l.
Proof.
  intros H. unfold emitted_since. rewrite H, skipn_app, skipn_all, Nat.sub_diag.
  reflexivity.
Qed.

Lemma target_folder_given h t :
  JS.truthy t = true -> target_folder h (Some t) = Some t.
Proof. intros H. unfold target_folder, or_else. now rewrite H. Qed.

(** C7. One call of [refreshFoldersPreferencesEditorWidget(target)], where
  [folder] is the target (the first root when no target is given) and
  [created] the widget [getFoldersPreferencesEditor] answers for it:
  - the Folder editor field or the tabs change, or anything but a file
    creation is issued, only when a widget was created and either no Folder
    editor was open or the open one is on another folder;
  - in that case the created widget becomes the Folder editor and the
    folder-uri-changed event is the last effect;
  - when the target is the folder of the open Folder editor, the field and
    the tabs are unchanged and nothing but a file creation is issued. *)
Theorem C7_folder_editor_replaced_only_when_needed :
  forall (h : Host) (st : State) (target : option string),
    let folder := target_folder h target in
    let created := fst (getFoldersPreferencesEditor h folder st) in
    let st' := exec (refreshFoldersPreferencesEditorWidget h target) st in
    let fired := emitted_since st st' in
    effects st' = effects st ++ fired /\
    ((foldersPreferenceEditorWidget st' <> foldersPreferenceEditorWidget st \/
      widgets st' <> widgets st \/
      (exists e, In e fired /\ forall uri, e <> CreateFile uri)) ->
     created <> None /\
     (foldersPreferenceEditorWidget st = None \/ activeFolder h st <> folder)) /\
    (forall w,
        created = Some w ->
        foldersPreferenceEditorWidget st = None \/ activeFolder h st <> folder ->
        foldersPreferenceEditorWidget st' = Some w /\
        exists before, fired = before ++ [FolderPreferenceEditorUriChanged w]) /\
    (forall t,
        target = Some t -> JS.truthy t = true -> activeFolder h st = Some t ->
        foldersPreferenceEditorWidget st' = foldersPreferenceEditorWidget st /\
        widgets st' = widgets st /\
        Forall (fun e => exists uri, e = CreateFile uri) fired).
Proof.
  intros h st target folder created st' fired.
  pose proof (refresh_cases h st target) as Hcases.
  pose proof (getFoldersPreferencesEditor_frame h folder st)
    as (_ & _ & Hf & Hw & made & Heff & Hmade).
  cbv zeta in Hcases, Hf, Hw, Heff. fold folder in Hcases. fold created in Hcases.
  fold st' in Hcases.
  set (st1 := snd (getFoldersPreferencesEditor h folder st)) in *.
  clearbody created st1 st'.
  assert (Hkeep : created = None \/ must_replace h st folder = false ->
                  st' = st1 /\ fired = made).
  { intros Hk. assert (st' = st1) as ->.
    { rewrite Hcases. destruct Hk as [Hk|Hk]; rewrite Hk;
        [reflexivity | now destruct created]. }
    split; [reflexivity | now apply emitted_since_app]. }
  assert (Hsame : forall t, target = Some t -> JS.truthy t = true ->
                            activeFolder h st = Some t ->
                            must_replace h st folder = false).
  { intros t -> Ht Ha. apply not_true_is_false. intros Hr.
    apply must_replace_spec in Hr as [Hr|Hr].
    - unfold activeFolder in Ha. rewrite Hr in Ha. discriminate.
    - apply Hr. rewrite Ha. unfold folder. now rewrite target_folder_given. }
  assert (Hquiet : forall e, In e made -> ~ forall uri, e <> CreateFile uri).
  { intros e He Hne. rewrite Forall_forall in Hmade.
    destruct (Hmade e He) as (uri & ->). now apply (Hne uri). }
  destruct created as [w|] eqn:Ec; [destruct (must_replace h st folder) eqn:Er|].
  - (* the Folder editor is replaced *)
    pose proof (replace_folder_editor_spec w st1) as (Hnew & _ & Hfired).
    cbv zeta in Hnew, Hfired. rewrite <- Hcases in Hnew, Hfired.
    rewrite Heff, <- app_assoc in Hfired.
    rewrite (emitted_since_app _ _ _ Hfired : fired = _).
    split; [exact Hfired | split; [|split]].
    + intros _. split; [discriminate | now apply must_replace_spec].
    + intros w0 [= <-] _. split; [exact Hnew|].
      eexists. now rewrite app_assoc.
    + intros t Ht Htr Ha. discriminate (Hsame t Ht Htr Ha).
  - (* a widget was created, for the folder already shown *)
    destruct (Hkeep (or_intror eq_refl)) as [-> ->].
    split; [exact Heff | split; [|split]].
    + intros [H|[H|(e & He & Hne)]]; try contradiction.
      now destruct (Hquiet e He).
    + intros w0 _ Hr. apply must_replace_spec in Hr. congruence.
    + intros t _ _ _. auto.
  - (* no widget could be created *)
    destruct (Hkeep (or_introl eq_refl)) as [-> ->].
    split; [exact Heff | split; [|split]].
    + intros [H|[H|(e & He & Hne)]]; try contradiction.
      now destruct (Hquiet e He).
    + intros w0 [=].
    + intros t _ _ _. auto.
Qed.

Lemma C7_witness :
  let st' := exec (refreshFoldersPreferencesEditorWidget Samples.host_saved None)
                  Samples.ec_user_only in
  foldersPreferenceEditorWidget st' = Some Samples.folder_settings /\
  exists before,
    emitted_since Samples.ec_user_only st'
    = before ++ [FolderPreferenceEditorUriChanged Samples.folder_settings].
Proof.
  apply (proj1 (proj2 (proj2
           (C7_folder_editor_replaced_only_when_needed
              Samples.host_saved Samples.ec_user_only None)))).
  - reflexivity.
  - left. reflexivity.
Defined.

(** ** Tabs after a replacement *)

Lemma filter_none {A} (f : A -> bool) l :
  (forall x, In x l -> f x = false) -> filter f l = [].
Proof.
  induction l as [|a l IH]; simpl; intros H; [reflexivity|].
  rewrite (H a) by now left. apply IH. intros x Hx. apply H. now right.
Qed.

Lemma filter_insert_after (f : WidgetRef -> bool) ref w l :
  f w = true -> (forall x, In x l -> f x = false) ->
  filter f (insert_after ref w l) = [w].
Proof.
  intros Hw. induction l as [|a l IH]; simpl; intros H.
  - now rewrite Hw.
  - assert (Ha : f a = false) by (apply H; now left).
    assert (Hl : forall x, In x l -> f x = false) by (intros x Hx; apply H; now right).
    destruct (String.eqb a ref); simpl; rewrite Ha.
    + rewrite Hw. f_equal. now apply filter_none.
    + now apply IH.
Qed.

Lemma filter_append_one (f : WidgetRef -> bool) w l :
  f w = true -> (forall x, In x l -> f x = false) -> filter f (l ++ [w]) = [w].
Proof.
  intros Hw H. rewrite filter_app, (filter_none f l H). simpl. now rewrite Hw.
Qed.

Lemma replace_folder_editor_tabs w st :
  foldersPreferenceEditorWidget st = None ->
  widgets (exec (replace_folder_editor w) st) =
  match first_of None (workspacePreferenceEditorWidget st)
                 (userPreferenceEditorWidget st) with
  | Some r => insert_after r w (remove_ref w (widgets st))
  | None => remove_ref w (widgets st) ++ [w]
  end.
Proof.
  intros H. unfold exec, replace_folder_editor, closeFoldersPreferenceEditorWidget.
  destruct st as [u ws f tabs sto eff]. cbn in H. subst f. reflexivity.
Qed.

(** Opening a Folder editor in a panel that shows none leaves exactly that
  Folder tab. *)
Lemma folder_tabs_after_open h folder w st :
  settings_uri h folder = Some w ->
  foldersPreferenceEditorWidget st = None ->
  folder_tabs st = [] ->
  folder_tabs (exec (replace_folder_editor w)
                    (snd (getFoldersPreferencesEditor h folder st))) = [w].
Proof.
  intros Hset Hnone Htabs.
  pose proof (getFoldersPreferencesEditor_frame h folder st) as (Hu & Hws & Hf & Hw & _).
  pose proof (getFoldersPreferencesEditor_store h folder st w Hset) as Hstore.
  cbv zeta in Hu, Hws, Hf, Hw.
  set (st1 := snd (getFoldersPreferencesEditor h folder st)) in *.
  pose proof (replace_folder_editor_spec w st1) as (_ & Hsto & _). cbv zeta in Hsto.
  unfold folder_tabs. rewrite Hsto, Hstore, replace_folder_editor_tabs by congruence.
  rewrite Hw.
  set (s' := update w _ _).
  assert (Hnew : is_folder_tab s' w = true).
  { unfold is_folder_tab, s'. now rewrite deref_update_same. }
  assert (Hold : forall x, In x (remove_ref w (widgets st)) -> is_folder_tab s' x = false).
  { intros x Hx. apply remove_ref_In in Hx as [Hx Hne].
    unfold is_folder_tab, s'. rewrite !deref_update_other by assumption.
    unfold folder_tabs in Htabs.
    assert (Hin : ~ In x (filter (is_folder_tab (store st)) (widgets st)))
      by (rewrite Htabs; auto).
    rewrite filter_In in Hin. unfold is_folder_tab in Hin.
    destruct (scope (deref (store st) x)) as [[]|]; tauto. }
  destruct (first_of None _ _).
  - now apply filter_insert_after.
  - now apply filter_append_one.
Qed.

End EditorsFacts.

(** * Properties of the preferences container *)

Module ContainerFacts.

Import Widgets Services Container.

Local Open Scope list_scope.

(** C1. On a selection event of the tree (one key and its value): when a
  tracked editor is dirty the listener issues the warning, once, and no
  preference write; when none is dirty and there is a current editor it
  issues one write of that key and value at the scope and URI of the
  current editor. Nothing else is issued and the container is otherwise
  unchanged. *)
Theorem C1_selection_warns_or_writes :
  forall (st : State),
    (forall value,
        dirty st = true ->
        onPreferenceSelected value st = emit (Warn unsaved_warning) st /\
        effects (onPreferenceSelected value st) = effects st ++ [Warn unsaved_warning]) /\
    (forall property chosen editor,
        dirty st = false ->
        currentEditor st = Some editor ->
        let write := PreferenceSet (Some property) (Some chosen)
                                   (scope (widget st editor)) editor in
        onPreferenceSelected [(property, chosen)] st = emit write st /\
        effects (onPreferenceSelected [(property, chosen)] st) = effects st ++ [write]).
Proof.
  intros st. split.
  - intros value Hd. unfold onPreferenceSelected. rewrite Hd. split; reflexivity.
  - intros property chosen editor Hd Hc write.
    unfold onPreferenceSelected. rewrite Hd, Hc. cbn [map fst hd_error selection_get].
    rewrite String.eqb_refl. split; reflexivity.
Qed.

Lemma C1_witness :
  effects (onPreferenceSelected [("editor.fontSize", "12")]
                                (Samples.three_editors false false true))
  = [Warn unsaved_warning] /\
  effects (onPreferenceSelected [("editor.fontSize", "12")]
                                (Samples.three_editors false false false))
  = [PreferenceSet (Some "editor.fontSize") (Some "12") (Some User) "a"].
Proof.
  split.
  - apply (proj1 (C1_selection_warns_or_writes (Samples.three_editors false false true))
                 [("editor.fontSize", "12")]).
    reflexivity.
  - apply (proj2 (C1_selection_warns_or_writes (Samples.three_editors false false false))
                 "editor.fontSize" "12" "a"); reflexivity.
Defined.

(** C2. The aggregate [dirty] is true exactly when some tracked editor's
  saveable is dirty; with three tracked editors whose flags are
  (false, false, true) it is true, and with all three false it is false. *)
Theorem C2_dirty_iff_some_editor_dirty :
  forall (st : State),
    (dirty st = true <->
     exists editor, In editor (editors st) /\
                    Widgets.dirty (saveable (widget st editor)) = true) /\
    (forall a b c,
        editors st = [a; b; c] ->
        Widgets.dirty (saveable (widget st a)) = false ->
        Widgets.dirty (saveable (widget st b)) = false ->
        Widgets.dirty (saveable (widget st c)) = true ->
        dirty st = true) /\
    (forall a b c,
        editors st = [a; b; c] ->
        Widgets.dirty (saveable (widget st a)) = false ->
        Widgets.dirty (saveable (widget st b)) = false ->
        Widgets.dirty (saveable (widget st c)) = false ->
        dirty st = false).
Proof.
  intros st. unfold dirty. split; [apply existsb_exists|].
  split; intros a b c -> Ha Hb Hc; simpl; now rewrite Ha, Hb, Hc.
Qed.

Lemma C2_witness :
  dirty (Samples.three_editors false false true) = true /\
  dirty (Samples.three_editors false false false) = false.
Proof.
  split.
  - apply (proj1 (proj2 (C2_dirty_iff_some_editor_dirty
                           (Samples.three_editors false false true))) "a" "b" "c");
      reflexivity.
  - apply (proj2 (proj2 (C2_dirty_iff_some_editor_dirty
                           (Samples.three_editors false false false))) "a" "b" "c");
      reflexivity.
Defined.

(** C3. On an editor-changed event for an editor other than the focused one,
  the listener runs three statements in this order: it force-saves the
  focused editor, which leaves a state where that editor is still the
  current one and the preference scope is still the old one; then it
  assigns the scope of the new editor; then it makes the new editor the
  current one. The save is the only effect. *)
Theorem C3_previous_editor_saved_before_focus_moves :
  forall (st : State) (previous editor : WidgetRef),
    currentEditor st = Some previous ->
    previous <> editor ->
    exists saved scoped focused,
      onEditorChanged_run (Some editor) (start st)
      = Some {| now := focused;
                history :=
                  [(Saved previous, saved);
                   (ScopeAssigned (scope_or_user (scope (widget st editor))), scoped);
                   (CurrentEditorAssigned (Some editor), focused)] |} /\
      saved = emit (Save previous) st /\
      effects saved = effects st ++ [Save previous] /\
      currentEditor saved = Some previous /\
      preferenceScope saved = preferenceScope st /\
      currentEditor scoped = Some previous /\
      preferenceScope scoped = scope_or_user (scope (widget st editor)) /\
      currentEditor focused = Some editor /\
      preferenceScope focused = scope_or_user (scope (widget st editor)) /\
      effects focused = effects st ++ [Save previous] /\
      onEditorChanged (Some editor) st = Some focused.
Proof.
  intros st previous editor Hc Hne.
  apply String.eqb_neq in Hne.
  do 3 eexists. split.
  - unfold onEditorChanged_run, then_, start. cbn [now]. rewrite Hc, Hne.
    cbn. reflexivity.
  - repeat split; try assumption.
    unfold onEditorChanged, onEditorChanged_run, then_, start. cbn [now].
    rewrite Hc, Hne. reflexivity.
Qed.

Lemma C3_witness :
  exists saved scoped focused,
    onEditorChanged_run (Some "b"%string) (start (Samples.three_editors true false false))
    = Some {| now := focused;
              history := [(Saved "a"%string, saved);
                          (ScopeAssigned Workspace, scoped);
                          (CurrentEditorAssigned (Some "b"%string), focused)] |} /\
    currentEditor saved = Some "a"%string /\
    preferenceScope saved = User /\
    currentEditor focused = Some "b"%string /\
    preferenceScope focused = Workspace /\
    effects focused = [Save "a"%string].
Proof.
  destruct (C3_previous_editor_saved_before_focus_moves
              (Samples.three_editors true false false) "a" "b" eq_refl)
    as (saved & scoped & focused & Hrun & _ & _ & Hc1 & Hs1 & _ & _ & Hc3 & Hs3 & He3 & _).
  - discriminate.
  - exists saved, scoped, focused. repeat split; assumption.
Defined.

(** C10. A selection event that finds no tracked editor dirty and no current
  editor is dropped: the container is unchanged, so neither a write nor a
  warning is issued. *)
Theorem C10_selection_without_editor_is_dropped :
  forall (st : State) (value : Selection),
    dirty st = false ->
    currentEditor st = None ->
    onPreferenceSelected value st = st /\
    effects (onPreferenceSelected value st) = effects st.
Proof.
  intros st value Hd Hc. unfold onPreferenceSelected. rewrite Hd, Hc. split; reflexivity.
Qed.

Lemma C10_witness :
  onPreferenceSelected [("editor.fontSize", "12")] (initial Samples.ec_user_only)
  = initial Samples.ec_user_only /\
  effects (onPreferenceSelected [("editor.fontSize", "12")] (initial Samples.ec_user_only))
  = [].
Proof.
  apply (C10_selection_without_editor_is_dropped (initial Samples.ec_user_only));
    reflexivity.
Defined.

(** ** Workspace roots *)

Lemma close_folder_editor_spec (ec : EditorsContainer.State) :
  let ec' := EditorsContainer.exec EditorsContainer.closeFoldersPreferenceEditorWidget ec in
  EditorsContainer.foldersPreferenceEditorWidget ec' = None /\
  match EditorsContainer.foldersPreferenceEditorWidget ec with
  | Some w =>
      EditorsContainer.effects ec'
      = EditorsContainer.effects ec
        ++ [EditorsContainer.CloseWidget w; EditorsContainer.DisposeWidget w] /\
      ~ In w (EditorsContainer.widgets ec')
  | None => ec' = ec
  end.
Proof.
  unfold EditorsContainer.exec, EditorsContainer.closeFoldersPreferenceEditorWidget.
  destruct ec as [u ws [w|] tabs sto eff]; cbn; [|auto].
  repeat split.
  - now rewrite <- app_assoc.
  - intros H. apply EditorsFacts.remove_ref_In in H as [_ H]. now apply H.
Qed.

(** C8 (as the code has it). When the roots have become [folderA], the
  workspace is saved, the folders preference provider gives a settings URI
  for [folderA], and no Folder editor is open, the listener opens exactly
  one Folder-scope tab, on that settings URI, makes it the Folder editor and
  fires the folder-uri-changed event. When the roots have become empty, the
  open Folder editor is closed and disposed, and it leaves the tabs. *)
Theorem C8_roots_change_opens_and_closes_folder_editor :
  forall (h : Host) (st : State),
    let ec := editorsContainer st in
    let ec' := editorsContainer (onWorkspaceChanged h st) in
    (forall folderA settings,
        tryGetRoots h = [folderA] ->
        saved h = true ->
        getConfigUri h (Some folderA) = Some settings \/
        (getConfigUri h (Some folderA) = None /\
         getContainingConfigUri h (Some folderA) = Some settings) ->
        EditorsContainer.foldersPreferenceEditorWidget ec = None ->
        EditorsContainer.folder_tabs ec = [] ->
        EditorsContainer.foldersPreferenceEditorWidget ec' = Some settings /\
        EditorsContainer.folder_tabs ec' = [settings] /\
        exists before,
          EditorsContainer.emitted_since ec ec'
          = before ++ [EditorsContainer.FolderPreferenceEditorUriChanged settings]) /\
    (tryGetRoots h = [] ->
     EditorsContainer.foldersPreferenceEditorWidget ec' = None /\
     forall w,
       EditorsContainer.foldersPreferenceEditorWidget ec = Some w ->
       ~ In w (EditorsContainer.widgets ec') /\
       EditorsContainer.emitted_since ec ec'
       = [EditorsContainer.CloseWidget w; EditorsContainer.DisposeWidget w]).
Proof.
  intros h st ec ec'. split.
  - intros folderA settings Hroots Hsaved Hconfig Hnone Htabs.
    assert (Hset : EditorsContainer.settings_uri h (Some folderA) = Some settings).
    { unfold EditorsContainer.settings_uri. rewrite Hsaved.
      destruct Hconfig as [-> | [-> ->]]; reflexivity. }
    assert (Hfolder : EditorsContainer.target_folder h (Some folderA) = Some folderA).
    { unfold EditorsContainer.target_folder, or_else. rewrite Hroots. simpl.
      now destruct (JS.truthy folderA). }
    assert (Hec' : ec' = EditorsContainer.exec
                           (EditorsContainer.replace_folder_editor settings)
                           (snd (EditorsContainer.getFoldersPreferencesEditor
                                   h (Some folderA) ec))).
    { unfold ec', onWorkspaceChanged, refreshFoldersPreferencesEditor.
      rewrite Hroots. cbn [List.length Nat.eqb existsb hd_error].
      unfold EditorsContainer.activeFolder. fold ec. rewrite Hnone.
      cbn [orb negb on_editorsContainer editorsContainer].
      fold ec. rewrite (EditorsFacts.refresh_cases h ec (Some folderA)). cbv zeta.
      rewrite Hfolder, EditorsFacts.getFoldersPreferencesEditor_result, Hset.
      unfold EditorsContainer.must_replace. now rewrite Hnone. }
    pose proof (EditorsFacts.getFoldersPreferencesEditor_frame h (Some folderA) ec)
      as (_ & _ & Hf & _ & made & Heff & _).
    pose proof (EditorsFacts.replace_folder_editor_spec settings
                  (snd (EditorsContainer.getFoldersPreferencesEditor h (Some folderA) ec)))
      as (Hnew & _ & Hfired).
    cbv zeta in Hf, Heff, Hnew, Hfired. rewrite <- Hec' in Hnew, Hfired.
    rewrite Hf, Hnone, Heff in Hfired. cbn [app] in Hfired.
    rewrite <- app_assoc in Hfired.
    split; [exact Hnew | split].
    + rewrite Hec'. now apply EditorsFacts.folder_tabs_after_open.
    + exists made. now apply EditorsFacts.emitted_since_app.
  - intros Hroots.
    assert (Hec' : ec' = EditorsContainer.exec
                           EditorsContainer.closeFoldersPreferenceEditorWidget ec).
    { unfold ec', onWorkspaceChanged, refreshFoldersPreferencesEditor.
      now rewrite Hroots. }
    pose proof (close_folder_editor_spec ec) as [Hnone Hclosed].
    cbv zeta in Hnone, Hclosed. rewrite <- Hec' in Hnone, Hclosed.
    split; [exact Hnone|].
    intros w Hw. rewrite Hw in Hclosed. destruct Hclosed as [Heff Hgone].
    split; [exact Hgone | now apply EditorsFacts.emitted_since_app].
Qed.

Lemma C8_witness :
  (let ec' := editorsContainer
                (onWorkspaceChanged Samples.host_saved (initial Samples.ec_user_only)) in
   EditorsContainer.foldersPreferenceEditorWidget ec' = Some Samples.folder_settings /\
   EditorsContainer.folder_tabs ec' = [Samples.folder_settings] /\
   exists before,
     EditorsContainer.emitted_since Samples.ec_user_only ec'
     = before ++ [EditorsContainer.FolderPreferenceEditorUriChanged
                    Samples.folder_settings]) /\
  (let ec' := editorsContainer
                (onWorkspaceChanged Samples.host_no_root
                                    (initial Samples.ec_with_folder)) in
   EditorsContainer.foldersPreferenceEditorWidget ec' = None /\
   forall w,
     EditorsContainer.foldersPreferenceEditorWidget Samples.ec_with_folder = Some w ->
     ~ In w (EditorsContainer.widgets ec') /\
     EditorsContainer.emitted_since Samples.ec_with_folder ec'
     = [EditorsContainer.CloseWidget w; EditorsContainer.DisposeWidget w]).
Proof.
  split.
  - apply (proj1 (C8_roots_change_opens_and_closes_folder_editor
                    Samples.host_saved (initial Samples.ec_user_only))
                 "file:///ws/a" Samples.folder_settings);
      [reflexivity | reflexivity | left; reflexivity | reflexivity | reflexivity].
  - apply (proj2 (C8_roots_change_opens_and_closes_folder_editor
                    Samples.host_no_root (initial Samples.ec_with_folder))).
    reflexivity.
Defined.

(** C8 as stated fails: roots that become [file:///ws/a] in a workspace that
  is not saved open no Folder editor. *)
Lemma C8_counterexample :
  ~ (forall (h : Host) (st : State) (folderA : string),
        tryGetRoots h = [folderA] ->
        EditorsContainer.foldersPreferenceEditorWidget (editorsContainer st) = None ->
        EditorsContainer.folder_tabs (editorsContainer st) = [] ->
        exists w,
          EditorsContainer.foldersPreferenceEditorWidget
            (editorsContainer (onWorkspaceChanged h st)) = Some w).
Proof.
  intros H.
  destruct (H Samples.host_unsaved (initial Samples.ec_user_only) "file:///ws/a"
              eq_refl eq_refl eq_refl) as [w Hw].
  vm_compute in Hw. discriminate Hw.
Qed.

End ContainerFacts.

(** * Further properties of the tree widget *)

Module TreeMore.

Import JS JSFacts TreeWidget TreeFacts Further.

Local Open Scope list_scope.

Lemma substring_zero s : String.substring 0 0 s = EmptyString.
Proof. now destruct s. Qed.

Lemma prefix_suffix c s :
  contains c s -> (prefix_before c s ++ String c (suffix_after c s))%string = s.
Proof.
  unfold contains. induction s as [|a r IH]; simpl; [tauto|].
  destruct (Ascii.eqb_spec a c) as [->|Hne]; simpl; [reflexivity|].
  intros [H|H]; [congruence | now rewrite IH].
Qed.

Lemma prefix_before_lt c s :
  contains c s -> (String.length (prefix_before c s) < String.length s)%nat.
Proof.
  unfold contains. induction s as [|a r IH]; simpl; [tauto|].
  destruct (Ascii.eqb_spec a c) as [->|Hne]; simpl; [lia|].
  intros [H|H]; [congruence | apply IH in H; lia].
Qed.

Lemma substring_suffix c s :
  contains c s ->
  String.substring (S (String.length (prefix_before c s)))
                   (String.length s - S (String.length (prefix_before c s))) s
  = suffix_after c s.
Proof.
  unfold contains. induction s as [|a r IH]; simpl; [tauto|].
  destruct (Ascii.eqb_spec a c) as [->|Hne]; simpl.
  - intros _. rewrite Nat.sub_0_r. apply substring_all.
  - intros [H|H]; [congruence | now apply IH].
Qed.

Lemma short_name_suffix k : contains "." k -> short_name k = suffix_after "." k.
Proof.
  intros H. unfold short_name, substring_from, substring, indexOf, clamp.
  rewrite indexOf_from_shift by assumption.
  pose proof (prefix_before_lt "." k H) as Hlt.
  set (n := String.length (prefix_before "." k)) in *.
  replace (Z.to_nat (Z.min (Z.max (0 + Z.of_nat n + 1) 0) (Z.of_nat (String.length k))))
    with (S n) by lia.
  replace (Z.to_nat (Z.min (Z.max (Z.of_nat (String.length k)) 0)
                           (Z.of_nat (String.length k))))
    with (String.length k) by lia.
  rewrite Nat.min_l, Nat.max_r by lia.
  now apply substring_suffix.
Qed.

(** X1. The two names the tree derives from a key fit together: for a key
  with a dot, the group name, a dot and the leaf name give back the key; for
  a key without a dot the leaf name is the whole key and the group name is
  empty. *)
Theorem X1_group_and_leaf_name_rebuild_key :
  forall (property : string),
    (has_group property = true ->
     (group_of property ++ "." ++ short_name property)%string = property) /\
    (has_group property = false ->
     short_name property = property /\ group_of property = EmptyString).
Proof.
  intros k. split; intros H.
  - pose proof (proj1 (has_group_contains k) H) as Hc.
    rewrite (group_of_prefix k H), (short_name_suffix k Hc).
    now apply prefix_suffix.
  - assert (Hc : ~ contains "." k).
    { intros Hc. apply has_group_contains in Hc. congruence. }
    unfold short_name, group_of, substring_from, substring, indexOf, clamp.
    rewrite (indexOf_absent "." k 0 Hc).
    replace (Z.to_nat (Z.min (Z.max (-1 + 1) 0) (Z.of_nat (String.length k))))
      with 0%nat by lia.
    replace (Z.to_nat (Z.min (Z.max (Z.of_nat (String.length k)) 0)
                             (Z.of_nat (String.length k))))
      with (String.length k) by lia.
    replace (Z.to_nat (Z.min (Z.max 0 0) (Z.of_nat (String.length k)))) with 0%nat by lia.
    replace (Z.to_nat (Z.min (Z.max (-1) 0) (Z.of_nat (String.length k))))
      with 0%nat by lia.
    rewrite Nat.min_0_l, Nat.max_0_l, Nat.sub_0_r, Nat.min_0_l, Nat.max_0_l.
    split; [apply substring_all | apply substring_zero].
Qed.

Lemma X1_witness :
  (group_of "editor.font.size" ++ "." ++ short_name "editor.font.size")%string
  = "editor.font.size" /\
  (short_name "plain" = "plain" /\ group_of "plain" = EmptyString).
Proof.
  split.
  - apply (proj1 (X1_group_and_leaf_name_rebuild_key "editor.font.size")). reflexivity.
  - apply (proj2 (X1_group_and_leaf_name_rebuild_key "plain")). reflexivity.
Defined.

Lemma lookup_key k p : In k (keys p) -> exists v, lookup k p = Some v /\ In (k, v) p.
Proof.
  induction p as [|[k' v'] p IH]; simpl; [tauto|].
  destruct (String.eqb_spec k' k) as [->|Hne].
  - intros _. exists v'. auto.
  - intros [H|H]; [contradiction|]. destruct (IH H) as (v & Hv & Hin). eauto.
Qed.

Lemma prefix_before_absent c s : ~ contains c s -> prefix_before c s = s.
Proof.
  unfold contains. induction s as [|a r IH]; simpl; [reflexivity|].
  destruct (Ascii.eqb_spec a c) as [->|Hne]; [tauto|].
  intros H. rewrite IH; tauto.
Qed.

(** X2. What a group node of the rebuilt tree lists: a key is a leaf of the
  group exactly when it is a key of the schema, is not a section name, and
  its first segment names the group. Every leaf points to its group, is
  named by the key without its first segment, and has metadata in the
  [properties] the widget keeps. *)
Theorem X2_leaves_are_the_group_s_schema_keys :
  forall (localeCompare : string -> string -> Z) (isSectionName : string -> bool)
         (toLocaleUpperCase : string -> string)
         (schema : Properties) (st : State) (g : GroupNode),
    let st' := initializeModel localeCompare isSectionName toLocaleUpperCase schema st in
    In g (groups_of st') ->
    (forall k,
        In k (leaf_ids g) <->
        In k (keys schema) /\ isSectionName k = false /\
        exists seg, first_segment k = Some seg /\ group_id g = (seg ++ "-id")%string) /\
    (forall leaf,
        In leaf (group_children g) ->
        leaf_parent leaf = group_id g /\
        leaf_name leaf = short_name (leaf_id leaf) /\
        exists v, lookup (leaf_id leaf) (properties st') = Some v).
Proof.
  intros cmp isSec upper schema st g st' Hg. unfold st' in *.
  rewrite groups_of_initializeModel in Hg.
  apply in_map_iff in Hg as (n & <- & _). split.
  - intros k. rewrite leaf_ids_make_group, (array_sort_In cmp), (members_In isSec).
    rewrite first_segment_prefix. cbn [group_id make_group]. split.
    + intros (Hk & <- & Hs). eauto.
    + intros (Hk & Hs & seg & [= <-] & Hid). apply append_inj_l in Hid. auto.
  - intros leaf Hleaf. cbn [group_children make_group] in Hleaf.
    apply in_map_iff in Hleaf as (k & <- & Hk).
    apply (array_sort_In cmp), (members_In isSec) in Hk as (Hk & _ & _).
    cbn. repeat split. destruct (lookup_key k schema Hk) as (v & Hv & _). eauto.
Qed.

Lemma X2_witness :
  In "files.exclude"%string
     (leaf_ids (make_group asciiCompare noSection latinUpper (keys schema3) "files")).
Proof.
  apply (proj1 (X2_leaves_are_the_group_s_schema_keys
                  asciiCompare noSection latinUpper schema3 initial
                  (make_group asciiCompare noSection latinUpper (keys schema3) "files")
                  (or_intror (or_introl eq_refl)))
               "files.exclude"%string).
  split; [simpl; auto | split; [reflexivity|]].
  exists "files"%string. split; reflexivity.
Defined.

(** X3. A key without a dot never creates a group; it is listed only when
  its whole name is one of the group names the widget holds (some key with
  a dot begins with it), and then under that group. *)
Theorem X3_key_without_dot_listed_only_under_homonymous_group :
  forall (localeCompare : string -> string -> Z) (isSectionName : string -> bool)
         (toLocaleUpperCase : string -> string)
         (schema : Properties) (st : State) (k : string),
    let st' := initializeModel localeCompare isSectionName toLocaleUpperCase schema st in
    In k (keys schema) ->
    has_group k = false ->
    isSectionName k = false ->
    ((exists g, In g (groups_of st') /\ In k (leaf_ids g)) <->
     In k (preferencesGroupNames st')) /\
    (forall g, In g (groups_of st') -> In k (leaf_ids g) ->
               group_id g = (k ++ "-id")%string).
Proof.
  intros cmp isSec upper schema st k st' Hk Hdot Hsec. unfold st'.
  assert (Hpre : prefix_before "." k = k).
  { apply prefix_before_absent. intros Hc. apply has_group_contains in Hc. congruence. }
  rewrite groups_of_initializeModel. cbn [preferencesGroupNames initializeModel].
  split; [split|].
  - intros (g & Hg & Hin). apply in_map_iff in Hg as (n & <- & Hn).
    rewrite leaf_ids_make_group in Hin.
    apply (array_sort_In cmp), (members_In isSec) in Hin as (_ & Hn' & _).
    apply (proj1 (array_sort_In cmp _ _)) in Hn.
    assert (n = k) as <- by congruence. exact Hn.
  - intros Hn. exists (make_group cmp isSec upper (keys schema) k). split.
    + now apply in_map, (array_sort_In cmp).
    + rewrite leaf_ids_make_group. apply (array_sort_In cmp), (members_In isSec). auto.
  - intros g Hg Hin. apply in_map_iff in Hg as (n & <- & Hn).
    rewrite leaf_ids_make_group in Hin.
    apply (array_sort_In cmp), (members_In isSec) in Hin as (_ & Hn' & _).
    cbn. congruence.
Qed.

Lemma X3_witness :
  let st' := initializeModel asciiCompare noSection latinUpper schema_dotless initial in
  ((exists g, In g (groups_of st') /\ In "plain" (leaf_ids g)) <->
   In "plain" (preferencesGroupNames st')) /\
  (forall g, In g (groups_of st') -> In "plain" (leaf_ids g) ->
             group_id g = ("plain" ++ "-id")%string).
Proof.
  apply (X3_key_without_dot_listed_only_under_homonymous_group
           asciiCompare noSection latinUpper schema_dotless initial "plain").
  - simpl; auto.
  - reflexivity.
  - reflexivity.
Defined.

(** X4. With a consistent comparison the group nodes appear in collation
  order of their names, which are the names the widget holds, and the
  leaves of every group appear in collation order of their keys. *)
Theorem X4_groups_and_leaves_are_sorted :
  forall (localeCompare : string -> string -> Z) (isSectionName : string -> bool)
         (toLocaleUpperCase : string -> string)
         (schema : Properties) (st : State),
    consistent localeCompare ->
    let st' := initializeModel localeCompare isSectionName toLocaleUpperCase schema st in
    (exists names,
        map group_id (groups_of st') = map (fun n => (n ++ "-id")%string) names /\
        StronglySorted (collated localeCompare) names /\
        Permutation names (preferencesGroupNames st')) /\
    (forall g, In g (groups_of st') ->
               StronglySorted (collated localeCompare) (leaf_ids g)).
Proof.
  intros cmp isSec upper schema st Hc st'. unfold st'.
  rewrite groups_of_initializeModel. split.
  - exists (array_sort cmp (collect_groups (keys schema) (preferencesGroupNames st))).
    rewrite map_map. split; [reflexivity|].
    split; [now apply array_sort_sorted | apply array_sort_perm].
  - intros g Hg. apply in_map_iff in Hg as (n & <- & _).
    rewrite leaf_ids_make_group. now apply array_sort_sorted.
Qed.

Lemma X4_witness :
  let st' := initializeModel asciiCompare noSection latinUpper schema3 initial in
  (exists names,
      map group_id (groups_of st') = map (fun n => (n ++ "-id")%string) names /\
      StronglySorted (collated asciiCompare) names /\
      Permutation names (preferencesGroupNames st')) /\
  (forall g, In g (groups_of st') ->
             StronglySorted (collated asciiCompare) (leaf_ids g)).
Proof.
  apply (X4_groups_and_leaves_are_sorted asciiCompare noSection latinUpper schema3 initial).
  exact asciiCompare_consistent.
Defined.

Lemma map_fst_group_decorations cmp isSec upper p n :
  map fst (group_decorations cmp isSec p n) = leaf_ids (make_group cmp isSec upper (keys p) n).
Proof.
  rewrite leaf_ids_make_group. unfold group_decorations.
  rewrite map_map. apply map_id.
Qed.

(** X5. Each rebuild hands the decorator one list: it names the leaves of the
  tree, group after group in the order shown, and pairs every leaf with
  metadata the schema holds for that key. Lists fired earlier are kept. *)
Theorem X5_decorations_follow_the_leaves :
  forall (localeCompare : string -> string -> Z) (isSectionName : string -> bool)
         (toLocaleUpperCase : string -> string)
         (schema : Properties) (st : State),
    let st' := initializeModel localeCompare isSectionName toLocaleUpperCase schema st in
    exists nodes,
      decorations_fired st' = decorations_fired st ++ [nodes] /\
      map fst nodes = List.concat (map leaf_ids (groups_of st')) /\
      forall k data, In (k, data) nodes ->
                     exists v, data = Some v /\ In (k, v) schema.
Proof.
  intros cmp isSec upper schema st st'. eexists. split; [reflexivity|]. split.
  - unfold st'. rewrite groups_of_initializeModel, map_map.
    rewrite flat_map_concat_map, concat_map, map_map.
    f_equal. apply map_ext. intros n. apply map_fst_group_decorations.
  - intros k data Hin. apply in_flat_map in Hin as (n & _ & Hin).
    unfold group_decorations in Hin. apply in_map_iff in Hin as (k' & [= <- <-] & Hk).
    apply (proj1 (array_sort_In cmp _ _)), (members_In isSec) in Hk as (Hk & _ & _).
    destruct (lookup_key k' schema Hk) as (v & Hv & Hin). eauto.
Qed.

Lemma X5_witness :
  exists nodes,
    decorations_fired (initializeModel asciiCompare noSection latinUpper schema3 initial) = [nodes] /\
    map fst nodes = ["editor.fontSize"; "editor.tabSize"; "files.exclude"].
Proof.
  destruct (X5_decorations_follow_the_leaves asciiCompare noSection latinUpper schema3 initial)
    as (nodes & Hfired & Hkeys & _).
  exists nodes. split; [exact Hfired | exact Hkeys].
Defined.

(** X6. The set of group names only grows: a rebuild keeps it free of
  duplicates, keeps every name it held, adds exactly the groups of the keys
  with a dot, and shows one group node per name. *)
Theorem X6_group_names_accumulate :
  forall (localeCompare : string -> string -> Z) (isSectionName : string -> bool)
         (toLocaleUpperCase : string -> string)
         (schema : Properties) (st : State),
    let st' := initializeModel localeCompare isSectionName toLocaleUpperCase schema st in
    (NoDup (preferencesGroupNames st) -> NoDup (preferencesGroupNames st')) /\
    (forall n, In n (preferencesGroupNames st') <->
               In n (preferencesGroupNames st) \/
               exists k, In k (keys schema) /\ has_group k = true /\ group_of k = n) /\
    Permutation (map group_id (groups_of st'))
                (map (fun n => (n ++ "-id")%string) (preferencesGroupNames st')).
Proof.
  intros cmp isSec upper schema st st'. unfold st'. split; [|split].
  - apply initializeModel_names_NoDup.
  - intros n. cbn [preferencesGroupNames initializeModel]. rewrite collect_groups_In.
    split; (intros [H|(k & Hk & H)]; [now left | right; exists k]).
    + tauto.
    + destruct H as [Hg Hn]. auto using has_group_truthy.
  - rewrite groups_of_initializeModel, map_map. cbn [group_id make_group].
    apply Permutation_map, array_sort_perm.
Qed.

Lemma X6_witness :
  NoDup (preferencesGroupNames (initializeModel asciiCompare noSection latinUpper schema3 initial)).
Proof.
  apply (proj1 (X6_group_names_accumulate asciiCompare noSection latinUpper schema3 initial)).
  constructor.
Defined.

Lemma set_add_present x s : In x s -> set_add x s = s.
Proof.
  intros H. unfold set_add.
  assert (existsb (String.eqb x) s = true) as ->; [|reflexivity].
  apply existsb_exists. exists x. split; [assumption | apply String.eqb_refl].
Qed.

Lemma collect_groups_saturated ks : forall from,
  (forall k, In k ks -> has_group k = true -> In (group_of k) from) ->
  collect_groups ks from = from.
Proof.
  unfold collect_groups. induction ks as [|k ks IH]; intros from H; simpl; [reflexivity|].
  assert (Hk : collect_group from k = from).
  { unfold collect_group. destruct (truthy k); [|reflexivity].
    destruct (has_group k) eqn:Hg; [|reflexivity].
    apply set_add_present, H; [now left | assumption]. }
  rewrite Hk. apply IH. intros k' Hk' Hg. apply H; [now right | assumption].
Qed.

(** X7. Rebuilding a second time from the same schema changes neither the
  tree nor the group names nor the stored properties; the same decoration
  list is fired once more. *)
Theorem X7_rebuild_is_idempotent :
  forall (localeCompare : string -> string -> Z) (isSectionName : string -> bool)
         (toLocaleUpperCase : string -> string)
         (schema : Properties) (st : State),
    let st1 := initializeModel localeCompare isSectionName toLocaleUpperCase schema st in
    let st2 := initializeModel localeCompare isSectionName toLocaleUpperCase schema st1 in
    model_root st2 = model_root st1 /\
    preferencesGroupNames st2 = preferencesGroupNames st1 /\
    properties st2 = properties st1 /\
    activeFolderUri st2 = activeFolderUri st /\
    exists nodes,
      decorations_fired st1 = decorations_fired st ++ [nodes] /\
      decorations_fired st2 = decorations_fired st ++ [nodes; nodes].
Proof.
  intros cmp isSec upper schema st st1 st2.
  assert (Hsat : collect_groups (keys schema) (preferencesGroupNames st1)
                 = preferencesGroupNames st1).
  { apply collect_groups_saturated. intros k Hk Hg.
    cbn [st1 preferencesGroupNames initializeModel]. apply collect_groups_In.
    right. exists k. auto using has_group_truthy. }
  unfold st2. cbn [initializeModel model_root preferencesGroupNames properties
                   activeFolderUri decorations_fired].
  rewrite Hsat. cbn [st1 initializeModel model_root preferencesGroupNames properties
                       activeFolderUri decorations_fired].
  repeat split. eexists. split; [reflexivity|]. now rewrite <- app_assoc.
Qed.

Lemma NoDup_flat_map_disjoint {A B} (f : A -> list B) (l : list A) :
  NoDup l ->
  (forall a, In a l -> NoDup (f a)) ->
  (forall a a' b, In a l -> In a' l -> In b (f a) -> In b (f a') -> a = a') ->
  NoDup (flat_map f l).
Proof.
  induction l as [|a l IH]; simpl; intros Hl Hf Hd; [constructor|].
  apply NoDup_cons_iff in Hl as [Ha Hl].
  apply NoDup_app.
  - apply Hf. now left.
  - apply IH; [assumption | intros; apply Hf; now right |].
    intros x x' b Hx Hx'. apply Hd; now right.
  - intros b Hb Hin. apply in_flat_map in Hin as (a' & Ha' & Hb').
    assert (a = a') by (apply (Hd a a' b); auto).
    subst a'. contradiction.
Qed.

(** X8. In the tree of a schema object (its keys are distinct) no key is
  shown twice, be it under one group or under two. *)
Theorem X8_no_key_is_listed_twice :
  forall (localeCompare : string -> string -> Z) (isSectionName : string -> bool)
         (toLocaleUpperCase : string -> string)
         (schema : Properties) (st : State),
    NoDup (keys schema) ->
    NoDup (preferencesGroupNames st) ->
    NoDup (List.concat (map leaf_ids
                       (groups_of (initializeModel localeCompare isSectionName toLocaleUpperCase schema st)))).
Proof.
  intros cmp isSec upper schema st Hkeys Hnames.
  rewrite groups_of_initializeModel, map_map, <- flat_map_concat_map.
  apply NoDup_flat_map_disjoint.
  - now apply array_sort_NoDup, collect_groups_NoDup.
  - intros n _. rewrite leaf_ids_make_group.
    apply array_sort_NoDup, NoDup_filter, Hkeys.
  - intros n n' k _ _ Hk Hk'. rewrite leaf_ids_make_group in Hk, Hk'.
    apply (proj1 (array_sort_In cmp _ _)), (members_In isSec) in Hk as (_ & Hn & _).
    apply (proj1 (array_sort_In cmp _ _)), (members_In isSec) in Hk' as (_ & Hn' & _).
    congruence.
Qed.

Lemma X8_witness :
  NoDup (List.concat (map leaf_ids
                     (groups_of (initializeModel asciiCompare noSection latinUpper
                                                 schema_dotless initial)))).
Proof.
  apply (X8_no_key_is_listed_twice asciiCompare noSection latinUpper schema_dotless initial).
  - repeat constructor; simpl; intuition discriminate.
  - constructor.
Defined.

(** X25. The label of a group node is the first code unit of the
  upper-cased group name, the rest of the name, and the number of leaves of
  the node in parentheses. It is the name with its first character
  capitalized whenever upper-casing the name and upper-casing its first
  character give the same first code unit. *)
Theorem X25_label_is_first_unit_rest_and_leaf_count :
  forall (localeCompare : string -> string -> Z) (isSectionName : string -> bool)
         (toLocaleUpperCase : string -> string)
         (schema : Properties) (st : State) (g : GroupNode) (group : string),
    In g (groups_of (initializeModel localeCompare isSectionName toLocaleUpperCase
                                     schema st)) ->
    group_id g = (group ++ "-id")%string ->
    group_name g
    = (substring (toLocaleUpperCase group) 0 1 ++ substring_from group 1
       ++ " (" ++ number_to_string (List.length (group_children g)) ++ ")")%string /\
    (substring (toLocaleUpperCase group) 0 1 = toLocaleUpperCase (substring group 0 1) ->
     group_name g = spec_label toLocaleUpperCase group (List.length (group_children g))).
Proof.
  intros cmp isSec upper schema st g group Hg Hid.
  rewrite groups_of_initializeModel in Hg.
  apply in_map_iff in Hg as (n & <- & _).
  cbn [group_id make_group] in Hid. apply append_inj_l in Hid. subst n.
  assert (Hlen : List.length (group_children (make_group cmp isSec upper (keys schema) group))
                 = List.length (members isSec group (keys schema))).
  { cbn [group_children make_group]. now rewrite length_map, array_sort_length. }
  rewrite Hlen. cbn [group_name make_group]. split; [reflexivity|].
  intros H. now apply group_label_spec.
Qed.

Lemma X25_witness :
  group_name (make_group asciiCompare noSection latinUpper (keys schema3) "editor")
  = spec_label latinUpper "editor"
      (List.length (group_children
                      (make_group asciiCompare noSection latinUpper (keys schema3) "editor"))).
Proof.
  apply (proj2 (X25_label_is_first_unit_rest_and_leaf_count
                  asciiCompare noSection latinUpper schema3 initial
                  (make_group asciiCompare noSection latinUpper (keys schema3) "editor")
                  "editor" (or_introl eq_refl) eq_refl)).
  reflexivity.
Defined.

(** X26. A fresh widget given the keys editor.fontSize, editor.tabSize and
  files.exclude, in whatever order the schema enumerates them, shows exactly
  the groups [Editor (2)] and [Files (1)], in that order, when the host
  collates "editor" before "files", upper-cases their first letters to E and
  F, and none of the keys is a section name. *)
Theorem X26_three_keys_in_any_enumeration :
  forall (localeCompare : string -> string -> Z) (isSectionName : string -> bool)
         (toLocaleUpperCase : string -> string)
         (schema : Properties) (d1 d2 d3 : PreferenceDataProperty),
    Permutation schema
                [("editor.fontSize", d1); ("editor.tabSize", d2); ("files.exclude", d3)] ->
    (localeCompare "editor" "files" < 0)%Z ->
    (0 < localeCompare "files" "editor")%Z ->
    isSectionName "editor.fontSize" = false ->
    isSectionName "editor.tabSize" = false ->
    isSectionName "files.exclude" = false ->
    substring (toLocaleUpperCase "editor") 0 1 = "E"%string ->
    substring (toLocaleUpperCase "files") 0 1 = "F"%string ->
    map group_name
        (groups_of (initializeModel localeCompare isSectionName toLocaleUpperCase
                                    schema initial))
    = ["Editor (2)"%string; "Files (1)"%string].
Proof.
  intros cmp isSec upper schema d1 d2 d3 Hp Hlt Hgt H1 H2 H3 HE HF.
  set (keys0 := ["editor.fontSize"; "editor.tabSize"; "files.exclude"]%string).
  assert (Hk : Permutation keys0 (keys schema)).
  { symmetry. change keys0 with (keys [("editor.fontSize"%string, d1);
                                       ("editor.tabSize"%string, d2);
                                       ("files.exclude"%string, d3)]).
    now apply Permutation_map. }
  assert (Hnames : array_sort cmp (collect_groups (keys schema) [])
                   = ["editor"%string; "files"%string]).
  { pose proof (collect_groups_permuted keys0 (keys schema) [] (NoDup_nil _) Hk) as Hg.
    change (collect_groups keys0 []) with ["editor"%string; "files"%string] in Hg.
    apply Permutation_length_2_inv in Hg as [-> | ->]; cbn [array_sort insert]; unfold sort.
    - assert ((cmp "editor" "files" <=? 0)%Z = true) as -> by (apply Z.leb_le; lia).
      reflexivity.
    - assert ((cmp "files" "editor" <=? 0)%Z = false) as -> by (apply Z.leb_gt; lia).
      reflexivity. }
  assert (Hcount : forall group,
             List.length (members isSec group (keys schema))
             = List.length (members isSec group keys0)).
  { intros group. apply Permutation_length, filter_permuted. now symmetry. }
  rewrite groups_of_initializeModel. cbn [preferencesGroupNames initial].
  rewrite Hnames. cbn [map]. unfold make_group. cbn [group_name].
  rewrite !Hcount. unfold members, keys0. cbn [filter]. unfold is_member.
  change (first_segment "editor.fontSize") with (Some "editor"%string).
  change (first_segment "editor.tabSize") with (Some "editor"%string).
  change (first_segment "files.exclude") with (Some "files"%string).
  rewrite H1, H2, H3. cbn [String.eqb Ascii.eqb Bool.eqb andb negb List.length].
  unfold group_label. rewrite HE, HF. reflexivity.
Qed.

Lemma X26_witness :
  map group_name
      (groups_of (initializeModel asciiCompare noSection latinUpper (rev schema3) initial))
  = ["Editor (2)"%string; "Files (1)"%string].
Proof.
  apply (X26_three_keys_in_any_enumeration
           asciiCompare noSection latinUpper (rev schema3) pdp0 pdp0 pdp0);
    [ symmetry; apply (Permutation_rev schema3)
    | vm_compute; reflexivity | vm_compute; reflexivity
    | reflexivity | reflexivity | reflexivity | reflexivity | reflexivity ].
Defined.

End TreeMore.

(** * Further properties of the editors container *)

Module EditorsMore.

Import Widgets Services EditorsContainer EditorsFacts Further.

Local Open Scope list_scope.

(** X9. [getFoldersPreferencesEditor] answers no widget and changes nothing
  when the workspace is not saved, or when the provider has neither a
  settings URI nor a containing one for the folder. In a saved workspace it
  answers the widget of the settings URI; the settings file is created
  exactly when only the containing URI is known. *)
Theorem X9_folder_editor_needs_saved_workspace_and_settings :
  forall (h : Host) (folderUri : option string) (st : State),
    let r := getFoldersPreferencesEditor h folderUri st in
    (saved h = false -> r = (None, st)) /\
    (getConfigUri h folderUri = None ->
     getContainingConfigUri h folderUri = None -> r = (None, st)) /\
    (forall uri,
        saved h = true -> getConfigUri h folderUri = Some uri ->
        fst r = Some uri /\ effects (snd r) = effects st) /\
    (forall uri,
        saved h = true -> getConfigUri h folderUri = None ->
        getContainingConfigUri h folderUri = Some uri ->
        fst r = Some uri /\ effects (snd r) = effects st ++ [CreateFile uri]).
Proof.
  intros h folderUri st r. unfold r, getFoldersPreferencesEditor, getFolderSettingsUri.
  split; [|split; [|split]].
  - intros ->. reflexivity.
  - intros -> ->. now destruct (saved h).
  - intros uri -> ->. split; reflexivity.
  - intros uri -> -> ->. split; reflexivity.
Qed.

Lemma X9_witness :
  getFoldersPreferencesEditor Samples.host_unsaved (Some "file:///ws/a")
                              Samples.ec_user_only
  = (None, Samples.ec_user_only) /\
  fst (getFoldersPreferencesEditor Samples.host_saved (Some "file:///ws/a")
                                   Samples.ec_user_only)
  = Some Samples.folder_settings.
Proof.
  split.
  - apply (proj1 (X9_folder_editor_needs_saved_workspace_and_settings
                    Samples.host_unsaved (Some "file:///ws/a") Samples.ec_user_only)).
    reflexivity.
  - apply (proj1 (proj2 (proj2 (X9_folder_editor_needs_saved_workspace_and_settings
                    Samples.host_saved (Some "file:///ws/a") Samples.ec_user_only)))
                 Samples.folder_settings); reflexivity.
Defined.

(** X10. The widget [getFoldersPreferencesEditor] answers is a Folder editor:
  its scope is Folder, its label "Folder", its clickable text the display
  name of the folder; its saveable and icon are kept, and the fields of
  every other widget are untouched. *)
Theorem X10_answered_widget_is_a_folder_editor :
  forall (h : Host) (folderUri : option string) (st : State) (w : WidgetRef),
    fst (getFoldersPreferencesEditor h folderUri st) = Some w ->
    let before := store st in
    let after := store (snd (getFoldersPreferencesEditor h folderUri st)) in
    scope (deref after w) = Some Folder /\
    label (title (deref after w)) = "Folder"%string /\
    clickableText (title (deref after w)) = Some (uri_displayName h folderUri) /\
    saveable (deref after w) = saveable (deref before w) /\
    iconClass (title (deref after w)) = iconClass (title (deref before w)) /\
    forall x, x <> w -> deref after x = deref before x.
Proof.
  intros h folderUri st w Hw before after.
  rewrite getFoldersPreferencesEditor_result in Hw.
  unfold after. rewrite (getFoldersPreferencesEditor_store h folderUri st w Hw).
  rewrite !deref_update_same. cbn. repeat split.
  intros x Hx. now rewrite !deref_update_other.
Qed.

Lemma X10_witness :
  scope (deref (store (snd (getFoldersPreferencesEditor
                              Samples.host_saved (Some "file:///ws/a")
                              Samples.ec_user_only)))
               Samples.folder_settings) = Some Folder.
Proof.
  apply (X10_answered_widget_is_a_folder_editor
           Samples.host_saved (Some "file:///ws/a") Samples.ec_user_only
           Samples.folder_settings).
  reflexivity.
Defined.

Lemma remove_ref_twice w ws : remove_ref w (remove_ref w ws) = remove_ref w ws.
Proof.
  unfold remove_ref. induction ws as [|x ws IH]; simpl; [reflexivity|].
  destruct (negb (String.eqb x w)) eqn:E; simpl; [rewrite E; f_equal|]; exact IH.
Qed.

(** X11. [closeFoldersPreferenceEditorWidget] leaves no Folder editor and no
  active folder; it removes the Folder editor's tab and no other, keeps the
  User and Workspace editors and the widgets' fields, does nothing when no
  Folder editor is open, and a second call in a row does nothing. *)
Theorem X11_closing_the_folder_editor :
  forall (h : Host) (st : State),
    let st' := exec closeFoldersPreferenceEditorWidget st in
    foldersPreferenceEditorWidget st' = None /\
    activeFolder h st' = None /\
    userPreferenceEditorWidget st' = userPreferenceEditorWidget st /\
    workspacePreferenceEditorWidget st' = workspacePreferenceEditorWidget st /\
    store st' = store st /\
    (forall w, foldersPreferenceEditorWidget st = Some w ->
               widgets st' = remove_ref w (widgets st)) /\
    (foldersPreferenceEditorWidget st = None -> st' = st) /\
    exec closeFoldersPreferenceEditorWidget st' = st'.
Proof.
  intros h st st'. unfold st', exec, closeFoldersPreferenceEditorWidget, activeFolder.
  destruct st as [u ws [old|] tabs sto eff]; cbn; repeat split; try discriminate.
  intros w [= ->]. apply remove_ref_twice.
Qed.

Lemma X11_witness :
  widgets (exec closeFoldersPreferenceEditorWidget Samples.ec_with_folder)
  = remove_ref Samples.folder_settings (widgets Samples.ec_with_folder).
Proof.
  apply (proj1 (proj2 (proj2 (proj2 (proj2 (proj2
           (X11_closing_the_folder_editor Samples.host_saved Samples.ec_with_folder))))))).
  reflexivity.
Defined.

(** ** Replacing the Folder editor *)

Lemma added_tab_In (ref : option WidgetRef) w tabs x :
  In x (match ref with
        | Some r => insert_after r w (remove_ref w tabs)
        | None => remove_ref w tabs ++ [w]
        end) <-> x = w \/ In x tabs.
Proof.
  destruct ref; rewrite ?insert_after_In, ?in_app_iff, remove_ref_In; simpl;
    destruct (string_dec x w); intuition.
Qed.

Lemma replace_folder_editor_widgets w st :
  widgets (exec (replace_folder_editor w) st) =
  let added :=
    match first_of (foldersPreferenceEditorWidget st)
                   (workspacePreferenceEditorWidget st)
                   (userPreferenceEditorWidget st) with
    | Some r => insert_after r w (remove_ref w (widgets st))
    | None => remove_ref w (widgets st) ++ [w]
    end in
  match foldersPreferenceEditorWidget st with
  | Some old => remove_ref old (remove_ref old added)
  | None => added
  end.
Proof.
  unfold exec, replace_folder_editor, closeFoldersPreferenceEditorWidget.
  destruct st as [u ws [old|] tabs sto eff]; reflexivity.
Qed.

Lemma replace_folder_editor_frame w st :
  let st' := exec (replace_folder_editor w) st in
  userPreferenceEditorWidget st' = userPreferenceEditorWidget st /\
  workspacePreferenceEditorWidget st' = workspacePreferenceEditorWidget st /\
  forall x,
    In x (widgets st') <->
    (x = w \/ In x (widgets st)) /\ foldersPreferenceEditorWidget st <> Some x.
Proof.
  cbv zeta. split; [|split].
  - unfold exec, replace_folder_editor, closeFoldersPreferenceEditorWidget.
    destruct st as [u ws [old|] tabs sto eff]; reflexivity.
  - unfold exec, replace_folder_editor, closeFoldersPreferenceEditorWidget.
    destruct st as [u ws [old|] tabs sto eff]; reflexivity.
  - intros x. rewrite replace_folder_editor_widgets. cbv zeta.
    destruct (foldersPreferenceEditorWidget st) as [old|].
    + rewrite !remove_ref_In, added_tab_In. split.
      * intros [[H _] Hne]. split; [exact H | congruence].
      * intros [H Hne]. assert (x <> old) by congruence. tauto.
    + rewrite added_tab_In. split; [intros H; split; [exact H | discriminate] | tauto].
Qed.

(** The three outcomes of [refreshFoldersPreferencesEditorWidget]. *)
Lemma refresh_outcome h st target :
  let folder := target_folder h target in
  let r := getFoldersPreferencesEditor h folder st in
  let st' := exec (refreshFoldersPreferencesEditorWidget h target) st in
  (st' = snd r /\ (fst r = None \/ must_replace h st folder = false)) \/
  (exists w, fst r = Some w /\ must_replace h st folder = true /\
             st' = exec (replace_folder_editor w) (snd r)).
Proof.
  intros folder r st'. unfold st'. rewrite refresh_cases. fold folder. fold r.
  destruct (fst r) as [w|]; [|now left; split; [|left]].
  destruct (must_replace h st folder) eqn:E; [right; eauto | left; auto].
Qed.

(** X12. When the settings URI the provider gives lies two levels under the
  target folder, a second refresh for the same target keeps the Folder
  editor and the tabs of the first, and issues nothing but, at most, the
  creation of the settings file: the Folder editor is not reopened. *)
Theorem X12_refresh_twice_keeps_the_folder_editor :
  forall (h : Host) (st : State) (target : option string) (folder w : string),
    target_folder h target = Some folder ->
    settings_uri h (Some folder) = Some w ->
    uri_parent h (uri_parent h w) = folder ->
    let st1 := exec (refreshFoldersPreferencesEditorWidget h target) st in
    let st2 := exec (refreshFoldersPreferencesEditorWidget h target) st1 in
    activeFolder h st1 = Some folder /\
    foldersPreferenceEditorWidget st2 = foldersPreferenceEditorWidget st1 /\
    widgets st2 = widgets st1 /\
    Forall (fun e => exists uri, e = CreateFile uri) (emitted_since st1 st2).
Proof.
  intros h st target folder w Hfolder Hset Hparent st1 st2.
  assert (Hactive : activeFolder h st1 = Some folder).
  { pose proof (getFoldersPreferencesEditor_frame h (Some folder) st) as (_ & _ & Hf & _).
    pose proof (getFoldersPreferencesEditor_result h (Some folder) st) as Hres.
    cbv zeta in Hf. rewrite Hset in Hres.
    destruct (refresh_outcome h st target) as [[Hst' Hno]|(w' & Hw' & _ & Hst')];
      cbv zeta in *; fold st1 in Hst'; rewrite Hfolder in *.
    - destruct Hno as [Hno|Hno]; [congruence|].
      assert (Hnot : ~ (foldersPreferenceEditorWidget st = None \/
                        activeFolder h st <> Some folder)).
      { intros H. apply must_replace_spec in H. congruence. }
      unfold activeFolder in *. rewrite Hst', Hf.
      destruct (foldersPreferenceEditorWidget st) as [f|]; [|tauto].
      destruct (string_dec (uri_parent h (uri_parent h f)) folder) as [->|Hne];
        [reflexivity|].
      exfalso. apply Hnot. right. congruence.
    - assert (w' = w) by congruence. subst w'.
      pose proof (replace_folder_editor_spec w
                    (snd (getFoldersPreferencesEditor h (Some folder) st)))
        as (Hnew & _). cbv zeta in Hnew. rewrite <- Hst' in Hnew.
      unfold activeFolder. now rewrite Hnew, Hparent. }
  split; [exact Hactive|].
  assert (Hkeep : must_replace h st1 (Some folder) = false).
  { apply not_true_is_false. intros H. apply must_replace_spec in H as [H|H].
    - unfold activeFolder in Hactive. rewrite H in Hactive. discriminate.
    - contradiction. }
  pose proof (getFoldersPreferencesEditor_frame h (Some folder) st1)
    as (_ & _ & Hf & Hw & made & Heff & Hmade).
  cbv zeta in Hf, Hw, Heff.
  destruct (refresh_outcome h st1 target) as [[Hst' _]|(w' & _ & Hyes & _)];
    cbv zeta in *; rewrite Hfolder in *; [|congruence].
  fold st2 in Hst'. rewrite Hst'. repeat split; try assumption.
  now rewrite (emitted_since_app _ _ _ Heff).
Qed.

Lemma X12_witness :
  let st1 := exec (refreshFoldersPreferencesEditorWidget Samples.host_saved None)
                  Samples.ec_user_only in
  let st2 := exec (refreshFoldersPreferencesEditorWidget Samples.host_saved None) st1 in
  activeFolder Samples.host_saved st1 = Some "file:///ws/a"%string /\
  foldersPreferenceEditorWidget st2 = foldersPreferenceEditorWidget st1 /\
  widgets st2 = widgets st1 /\
  Forall (fun e => exists uri, e = CreateFile uri) (emitted_since st1 st2).
Proof.
  apply (X12_refresh_twice_keeps_the_folder_editor
           Samples.host_saved Samples.ec_user_only None
           "file:///ws/a" Samples.folder_settings); reflexivity.
Defined.

Lemma created_store h folder st w x :
  fst (getFoldersPreferencesEditor h folder st) = Some w -> x <> w ->
  deref (store (snd (getFoldersPreferencesEditor h folder st))) x = deref (store st) x.
Proof.
  intros Hw Hx. rewrite getFoldersPreferencesEditor_result in Hw.
  rewrite (getFoldersPreferencesEditor_store h folder st w Hw).
  now rewrite !deref_update_other.
Qed.

Lemma not_created_state h folder st :
  fst (getFoldersPreferencesEditor h folder st) = None ->
  snd (getFoldersPreferencesEditor h folder st) = st.
Proof.
  unfold getFoldersPreferencesEditor, getFolderSettingsUri.
  destruct (saved h); [|reflexivity].
  destruct (getConfigUri h folder); [discriminate|].
  destruct (getContainingConfigUri h folder); [discriminate | reflexivity].
Qed.

Lemma refresh_frame :
  forall (h : Host) (st : State) (target : option string) (x : WidgetRef),
    let st' := exec (refreshFoldersPreferencesEditorWidget h target) st in
    let created := fst (getFoldersPreferencesEditor h (target_folder h target) st) in
    userPreferenceEditorWidget st' = userPreferenceEditorWidget st /\
    workspacePreferenceEditorWidget st' = workspacePreferenceEditorWidget st /\
    (created <> Some x ->
     foldersPreferenceEditorWidget st <> Some x ->
     (In x (widgets st') <-> In x (widgets st)) /\
     deref (store st') x = deref (store st) x).
Proof.
  intros h st target x st' created.
  pose proof (getFoldersPreferencesEditor_frame h (target_folder h target) st)
    as (Hu & Hws & Hf & Hw & _).
  cbv zeta in Hu, Hws, Hf, Hw.
  assert (Hstore : created <> Some x ->
                   deref (store (snd (getFoldersPreferencesEditor
                                        h (target_folder h target) st))) x
                   = deref (store st) x).
  { intros Hx. destruct created as [w|] eqn:Ec.
    - apply (created_store h _ st w); [exact Ec | congruence].
    - now rewrite not_created_state. }
  destruct (refresh_outcome h st target) as [[Hst' _]|(w & Hc & _ & Hst')];
    cbv zeta in Hst'; fold st' in Hst'; rewrite Hst'.
  - repeat split; try assumption; try (now rewrite Hw); now apply Hstore.
  - pose proof (replace_folder_editor_frame w
                  (snd (getFoldersPreferencesEditor h (target_folder h target) st)))
      as (Hu' & Hws' & Htabs).
    pose proof (replace_folder_editor_spec w
                  (snd (getFoldersPreferencesEditor h (target_folder h target) st)))
      as (_ & Hsto & _).
    cbv zeta in Hu', Hws', Htabs, Hsto.
    split; [congruence | split; [congruence|]].
    intros Hx Hold. fold created in Hc. split.
    + rewrite Htabs, Hf, Hw. split; [|tauto].
      intros [[->|H] _]; [congruence | exact H].
    + rewrite Hsto. now apply Hstore.
Qed.


(** X13. A refresh of the Folder editor never reassigns the User or the
  Workspace editor, and a widget that is neither the created one nor the
  open Folder editor keeps its tab (or its absence) and its fields. *)
Theorem X13_refresh_touches_only_folder_widgets :
  forall (h : Host) (st : State) (target : option string) (x : WidgetRef),
    let st' := exec (refreshFoldersPreferencesEditorWidget h target) st in
    let created := fst (getFoldersPreferencesEditor h (target_folder h target) st) in
    userPreferenceEditorWidget st' = userPreferenceEditorWidget st /\
    workspacePreferenceEditorWidget st' = workspacePreferenceEditorWidget st /\
    (created <> Some x ->
     foldersPreferenceEditorWidget st <> Some x ->
     (In x (widgets st') <-> In x (widgets st)) /\
     deref (store st') x = deref (store st) x).
Proof. exact refresh_frame. Qed.

Lemma X13_witness :
  let st' := exec (refreshFoldersPreferencesEditorWidget Samples.host_saved None)
                  Samples.ec_user_only in
  (In Samples.user_settings (widgets st') <->
   In Samples.user_settings (widgets Samples.ec_user_only)) /\
  deref (store st') Samples.user_settings
  = deref (store Samples.ec_user_only) Samples.user_settings.
Proof.
  apply (proj2 (proj2 (X13_refresh_touches_only_folder_widgets
                         Samples.host_saved Samples.ec_user_only None
                         Samples.user_settings))); discriminate.
Defined.

Lemma option_ref_dec (a b : option WidgetRef) : a = b \/ a <> b.
Proof.
  destruct a as [a|], b as [b|]; try (right; discriminate); [|now left].
  destruct (string_dec a b) as [->|H]; [now left | right; congruence].
Qed.

Lemma folder_tabs_In st x :
  In x (folder_tabs st) <->
  In x (widgets st) /\ scope (deref (store st) x) = Some Folder.
Proof.
  unfold folder_tabs, is_folder_tab. rewrite filter_In.
  destruct (scope (deref (store st) x)) as [[]|]; intuition discriminate.
Qed.

(** X14. At most one Folder tab. If every Folder-scope tab is the Folder
  editor, and the widget created for the target is not a tab unless it is
  the Folder editor, then after the refresh every Folder-scope tab is again
  the Folder editor. *)
Theorem X14_refresh_keeps_one_folder_tab :
  forall (h : Host) (st : State) (target : option string),
    let st' := exec (refreshFoldersPreferencesEditorWidget h target) st in
    (forall x, In x (folder_tabs st) -> foldersPreferenceEditorWidget st = Some x) ->
    (forall w, fst (getFoldersPreferencesEditor h (target_folder h target) st) = Some w ->
               In w (widgets st) -> foldersPreferenceEditorWidget st = Some w) ->
    forall x, In x (folder_tabs st') -> foldersPreferenceEditorWidget st' = Some x.
Proof.
  intros h st target st' Hinv Hfresh x Hx.
  apply folder_tabs_In in Hx as [Htab Hscope].
  pose proof (refresh_frame h st target x) as (_ & _ & Hother).
  cbv zeta in Hother. fold st' in Hother.
  pose proof (getFoldersPreferencesEditor_frame h (target_folder h target) st)
    as (_ & _ & Hf & Hw & _).
  cbv zeta in Hf, Hw.
  destruct (refresh_outcome h st target) as [[Hst' _]|(w & Hc & _ & Hst')];
    cbv zeta in Hst'; fold st' in Hst'.
  - (* the Folder editor is kept *)
    assert (Hfield : foldersPreferenceEditorWidget st' = foldersPreferenceEditorWidget st)
      by (rewrite Hst'; exact Hf).
    assert (Htab0 : In x (widgets st)) by (rewrite Hst', Hw in Htab; exact Htab).
    rewrite Hfield.
    destruct (option_ref_dec (foldersPreferenceEditorWidget st) (Some x))
      as [|Hne]; [assumption|].
    destruct (option_ref_dec
                (fst (getFoldersPreferencesEditor h (target_folder h target) st)) (Some x))
      as [Hcx|Hcx]; [now apply Hfresh|].
    destruct (Hother Hcx Hne) as [_ Hsame].
    apply Hinv, folder_tabs_In. split; [exact Htab0 | congruence].
  - (* the Folder editor is replaced by [w] *)
    pose proof (replace_folder_editor_spec w
                  (snd (getFoldersPreferencesEditor h (target_folder h target) st)))
      as (Hnew & _). cbv zeta in Hnew. rewrite <- Hst' in Hnew.
    rewrite Hnew. destruct (string_dec w x) as [->|Hwx]; [reflexivity|].
    exfalso.
    pose proof (replace_folder_editor_frame w
                  (snd (getFoldersPreferencesEditor h (target_folder h target) st)))
      as (_ & _ & Htabs). cbv zeta in Htabs.
    rewrite Hst' in Htab. apply Htabs in Htab as [[->|Hin] Hold]; [congruence|].
    rewrite Hf in Hold. rewrite Hw in Hin.
    assert (Hcx : fst (getFoldersPreferencesEditor h (target_folder h target) st) <> Some x)
      by congruence.
    destruct (Hother Hcx Hold) as [_ Hsame].
    apply Hold, Hinv, folder_tabs_In. split; [exact Hin | congruence].
Qed.

Lemma X14_witness :
  foldersPreferenceEditorWidget
    (exec (refreshFoldersPreferencesEditorWidget Samples.host_saved None)
          Samples.ec_user_only) = Some Samples.folder_settings.
Proof.
  apply (X14_refresh_keeps_one_folder_tab Samples.host_saved Samples.ec_user_only None).
  - intros x Hx. vm_compute in Hx. contradiction.
  - intros w Hw Hin. vm_compute in Hw. injection Hw as <-.
    vm_compute in Hin. destruct Hin as [Hin|[]]. discriminate Hin.
  - vm_compute. left. reflexivity.
Defined.

(** X15. When a refresh replaces an open Folder editor, the superseded
  widget is closed and disposed, once each and in that order, after the
  settings file was created if it had to be and before the folder-uri-changed
  event; it is no longer a tab, and the created widget is one unless it is
  the superseded widget itself. *)
Theorem X15_superseded_folder_editor_is_closed :
  forall (h : Host) (st : State) (target : option string) (old w : WidgetRef),
    let folder := target_folder h target in
    let st' := exec (refreshFoldersPreferencesEditorWidget h target) st in
    foldersPreferenceEditorWidget st = Some old ->
    fst (getFoldersPreferencesEditor h folder st) = Some w ->
    activeFolder h st <> folder ->
    foldersPreferenceEditorWidget st' = Some w /\
    (exists made,
        Forall (fun e => exists uri, e = CreateFile uri) made /\
        emitted_since st st'
        = made ++ [CloseWidget old; DisposeWidget old;
                   FolderPreferenceEditorUriChanged w]) /\
    ~ In old (widgets st') /\
    (w <> old -> In w (widgets st')).
Proof.
  intros h st target old w folder st' Hold Hw Hactive.
  pose proof (getFoldersPreferencesEditor_frame h folder st)
    as (_ & _ & Hf & Htabs0 & made & Heff & Hmade).
  cbv zeta in Hf, Htabs0, Heff.
  assert (Hyes : must_replace h st folder = true) by (apply must_replace_spec; now right).
  destruct (refresh_outcome h st target) as [[_ [Hno|Hno]]|(w' & Hw' & _ & Hst')];
    cbv zeta in *; fold folder in Hno || fold folder in Hw', Hst'; try congruence.
  fold st' in Hst'. assert (w' = w) by congruence. subst w'.
  pose proof (replace_folder_editor_spec w (snd (getFoldersPreferencesEditor h folder st)))
    as (Hnew & _ & Hfired).
  pose proof (replace_folder_editor_frame w (snd (getFoldersPreferencesEditor h folder st)))
    as (_ & _ & Htabs).
  cbv zeta in Hnew, Hfired, Htabs. rewrite <- Hst' in Hnew, Hfired, Htabs.
  rewrite Hf, Hold, Heff, <- app_assoc in Hfired. rewrite Hf, Hold in Htabs.
  split; [exact Hnew | split; [|split]].
  - exists made. split; [exact Hmade | now apply emitted_since_app].
  - intros H. apply Htabs in H as [_ H]. now apply H.
  - intros Hne. apply Htabs. split; [now left | congruence].
Qed.

Lemma X15_witness :
  let st' := exec (refreshFoldersPreferencesEditorWidget
                     Samples.host_saved (Some "file:///ws/b"%string))
                  Samples.ec_with_folder in
  foldersPreferenceEditorWidget st' = Some "file:///ws/b/.theia/settings.json"%string /\
  (exists made,
      Forall (fun e => exists uri, e = CreateFile uri) made /\
      emitted_since Samples.ec_with_folder st'
      = made ++ [CloseWidget Samples.folder_settings;
                 DisposeWidget Samples.folder_settings;
                 FolderPreferenceEditorUriChanged
                   "file:///ws/b/.theia/settings.json"%string]) /\
  ~ In Samples.folder_settings (widgets st') /\
  ("file:///ws/b/.theia/settings.json"%string <> Samples.folder_settings ->
   In "file:///ws/b/.theia/settings.json"%string (widgets st')).
Proof.
  apply (X15_superseded_folder_editor_is_closed
           Samples.host_saved Samples.ec_with_folder (Some "file:///ws/b"%string)
           Samples.folder_settings "file:///ws/b/.theia/settings.json");
    [reflexivity | reflexivity | vm_compute; discriminate].
Defined.

Lemma find_first {A} (f : A -> bool) pre x post :
  (forall y, In y pre -> f y = false) -> f x = true ->
  List.find f (pre ++ x :: post) = Some x.
Proof.
  intros Hpre Hx. induction pre as [|y pre IH]; simpl; [now rewrite Hx|].
  rewrite (Hpre y) by now left. apply IH. intros z Hz. apply Hpre. now right.
Qed.

Lemma find_absent {A} (f : A -> bool) l :
  (forall y, In y l -> f y = false) -> List.find f l = None.
Proof.
  induction l as [|y l IH]; simpl; intros H; [reflexivity|].
  rewrite (H y) by now left. apply IH. intros z Hz. apply H. now right.
Qed.

(** X16. [activatePreferenceEditor] raises at most one tab: the first tab, in
  tab order, whose scope is the requested one; when no tab has that scope
  nothing happens. Only the effect list changes. *)
Theorem X16_first_tab_of_the_scope_is_activated :
  forall (st : State) (preferenceScope : PreferenceScope),
    let st' := exec (activatePreferenceEditor preferenceScope) st in
    ((forall w, In w (widgets st) ->
                scope (deref (store st) w) <> Some preferenceScope) ->
     st' = st) /\
    (forall pre w post,
        widgets st = pre ++ w :: post ->
        (forall x, In x pre -> scope (deref (store st) x) <> Some preferenceScope) ->
        scope (deref (store st) w) = Some preferenceScope ->
        st' = snd (emit (ActivateWidget w) st)).
Proof.
  intros st sc st'. unfold st', exec, activatePreferenceEditor, bind, get.
  set (f := fun w => match scope (deref (store st) w) with
                     | Some s => scope_eqb s sc
                     | None => false
                     end).
  assert (Hf : forall w, f w = true <-> scope (deref (store st) w) = Some sc).
  { intros w. unfold f. destruct (scope (deref (store st) w)) as [s|];
      [|split; discriminate].
    destruct s, sc; simpl; split; congruence. }
  split.
  - intros Hnone. replace (List.find f (widgets st)) with (@None WidgetRef); [reflexivity|].
    symmetry. apply find_absent. intros w Hw. apply not_true_is_false.
    intros H. apply Hf in H. now apply (Hnone w).
  - intros pre w post Htabs Hpre Hw. rewrite Htabs, (find_first f pre w post);
      [reflexivity | | now apply Hf].
    intros y Hy. apply not_true_is_false. intros H. apply Hf in H. now apply (Hpre y).
Qed.

Lemma X16_witness :
  exec (activatePreferenceEditor Folder) Samples.ec_with_folder
  = snd (emit (ActivateWidget Samples.folder_settings) Samples.ec_with_folder).
Proof.
  apply (proj2 (X16_first_tab_of_the_scope_is_activated Samples.ec_with_folder Folder)
               [Samples.user_settings] Samples.folder_settings []).
  - reflexivity.
  - intros x [<-|[]]. vm_compute. discriminate.
  - reflexivity.
Defined.

Lemma exec_then {A} (m : M A) (k : M unit) st :
  exec (bind m (fun _ => k)) st = exec k (exec m st).
Proof. unfold exec, bind. now destruct (m st). Qed.

Lemma close_all_spec ws : forall st,
  widgets (exec (close_all ws) st)
  = filter (fun x => negb (existsb (String.eqb x) ws)) (widgets st) /\
  effects (exec (close_all ws) st) = effects st ++ map CloseWidget ws /\
  store (exec (close_all ws) st) = store st /\
  userPreferenceEditorWidget (exec (close_all ws) st) = userPreferenceEditorWidget st /\
  workspacePreferenceEditorWidget (exec (close_all ws) st)
  = workspacePreferenceEditorWidget st /\
  foldersPreferenceEditorWidget (exec (close_all ws) st) = foldersPreferenceEditorWidget st.
Proof.
  induction ws as [|w ws IH]; intros st.
  - cbn. repeat split; [|now rewrite app_nil_r].
    induction (widgets st) as [|x l IHl]; simpl; [reflexivity | now rewrite <- IHl].
  - cbn [close_all]. rewrite exec_then.
    destruct (IH (exec (close w) st)) as (Hw & He & Hs & Hu & Hws & Hf).
    rewrite Hw, He, Hs, Hu, Hws, Hf. cbn. repeat split.
    + unfold remove_ref. induction (widgets st) as [|x l IHl]; simpl; [reflexivity|].
      rewrite (String.eqb_sym x w).
      destruct (String.eqb w x); simpl; [exact IHl | now rewrite IHl].
    + now rewrite <- app_assoc.
Qed.

(** X17. A close request to the editors container closes every tab, each
  once and in tab order, and leaves the panel without tabs; the widgets'
  fields and the three editor fields are not touched. *)
Theorem X17_close_request_closes_every_tab :
  forall (st : State),
    let st' := exec onCloseRequest st in
    widgets st' = [] /\
    effects st' = effects st ++ map CloseWidget (widgets st) /\
    store st' = store st /\
    userPreferenceEditorWidget st' = userPreferenceEditorWidget st /\
    workspacePreferenceEditorWidget st' = workspacePreferenceEditorWidget st /\
    foldersPreferenceEditorWidget st' = foldersPreferenceEditorWidget st.
Proof.
  intros st st'.
  destruct (close_all_spec (widgets st) st) as (Hw & Hrest).
  split; [|exact Hrest].
  change (widgets st') with (widgets (exec (close_all (widgets st)) st)).
  rewrite Hw. apply filter_none. intros x Hx. apply negb_false_iff, existsb_exists.
  exists x. split; [exact Hx | apply String.eqb_refl].
Qed.

End EditorsMore.

(** * Further properties of the preferences container *)

Module ContainerMore.

Import Widgets Services Container ContainerFacts Further.

Local Open Scope list_scope.

Lemma save_fold eds : forall st,
  let st' := fold_left (fun acc editor => emit (Save editor) acc) eds st in
  effects st' = effects st ++ map Save eds /\
  currentEditor st' = currentEditor st /\
  editors st' = editors st /\
  preferenceScope st' = preferenceScope st /\
  editorsContainer st' = editorsContainer st.
Proof.
  induction eds as [|e eds IH]; intros st; cbn.
  - now rewrite app_nil_r.
  - destruct (IH (emit (Save e) st)) as (He & Hc & Hed & Hs & Hec).
    cbv zeta in He, Hc, Hed, Hs, Hec. rewrite He, Hc, Hed, Hs, Hec. cbn.
    now rewrite <- app_assoc.
Qed.

(** X18. [save()] force-saves every tracked editor, once each and in the
  order they are tracked, whether dirty or not, and changes nothing else;
  without tracked editors it does nothing. *)
Theorem X18_save_saves_every_tracked_editor :
  forall (st : State),
    effects (save st) = effects st ++ map Save (editors st) /\
    currentEditor (save st) = currentEditor st /\
    editors (save st) = editors st /\
    preferenceScope (save st) = preferenceScope st /\
    editorsContainer (save st) = editorsContainer st /\
    (editors st = [] -> save st = st).
Proof.
  intros st. destruct (save_fold (editors st) st) as (He & Hc & Hed & Hs & Hec).
  repeat split; try assumption.
  intros H. unfold save. now rewrite H.
Qed.

Lemma X18_witness :
  save (initial Samples.ec_user_only) = initial Samples.ec_user_only.
Proof.
  apply (proj2 (proj2 (proj2 (proj2 (proj2
           (X18_save_saves_every_tracked_editor (initial Samples.ec_user_only))))))).
  reflexivity.
Defined.

(** ** Reconciling the tracked editors *)

Lemma mem_In w ws : mem w ws = true <-> In w ws.
Proof.
  unfold mem. rewrite existsb_exists. split.
  - intros (x & Hx & He). apply String.eqb_eq in He. now subst.
  - intros H. exists w. split; [assumption | apply String.eqb_refl].
Qed.

Lemma mem_false w ws : mem w ws = false <-> ~ In w ws.
Proof. rewrite <- mem_In. destruct (mem w ws); split; congruence. Qed.

Lemma added_In tabs : forall eds e,
  In e (fold_left (fun acc editor => if mem editor acc then acc else acc ++ [editor])
                  tabs eds) <-> In e eds \/ In e tabs.
Proof.
  induction tabs as [|t tabs IH]; intros eds e; simpl; [tauto|].
  rewrite IH. destruct (mem t eds) eqn:E.
  - apply mem_In in E. split; [tauto|]. intros [H|[<-|H]]; auto.
  - rewrite in_app_iff. simpl. tauto.
Qed.

Lemma added_NoDup tabs : forall eds,
  NoDup eds ->
  NoDup (fold_left (fun acc editor => if mem editor acc then acc else acc ++ [editor])
                   tabs eds).
Proof.
  induction tabs as [|t tabs IH]; intros eds H; simpl; [assumption|].
  apply IH. destruct (mem t eds) eqn:E; [assumption|].
  apply mem_false in E. apply NoDup_app; [assumption | repeat constructor; auto |].
  intros x Hx [<-|[]]. contradiction.
Qed.

Lemma added_formula tabs : forall eds,
  NoDup tabs ->
  fold_left (fun acc editor => if mem editor acc then acc else acc ++ [editor]) tabs eds
  = eds ++ filter (fun e => negb (mem e eds)) tabs.
Proof.
  induction tabs as [|t tabs IH]; intros eds Hnd; simpl; [now rewrite app_nil_r|].
  apply NoDup_cons_iff in Hnd as [Ht Hnd]. rewrite IH by assumption.
  destruct (mem t eds) eqn:E; simpl; [reflexivity|].
  rewrite <- app_assoc. simpl. do 2 f_equal.
  apply filter_ext_in. intros x Hx. f_equal.
  destruct (mem x eds) eqn:Ex.
  - apply mem_In. apply in_app_iff. left. now apply mem_In.
  - apply mem_false. rewrite in_app_iff. simpl. apply mem_false in Ex.
    intros [H|[<-|[]]]; contradiction.
Qed.

Lemma filter_all {A} (f : A -> bool) l :
  (forall x, In x l -> f x = true) -> filter f l = l.
Proof.
  induction l as [|a l IH]; simpl; intros H; [reflexivity|].
  rewrite (H a) by now left. f_equal. apply IH. intros x Hx. apply H. now right.
Qed.

Lemma activate_frame sc ec :
  let ec' := EditorsContainer.exec (EditorsContainer.activatePreferenceEditor sc) ec in
  EditorsContainer.widgets ec' = EditorsContainer.widgets ec /\
  EditorsContainer.store ec' = EditorsContainer.store ec.
Proof.
  unfold EditorsContainer.exec, EditorsContainer.activatePreferenceEditor,
    EditorsContainer.bind, EditorsContainer.get.
  destruct (List.find _ _); split; reflexivity.
Qed.

(** X19. [handleEditorsChanged] makes the tracked editors exactly the tabs of
  the editors container: editors still shown keep their place, those no
  longer shown are dropped, new tabs are appended in tab order, and no
  duplicate appears. It fires the trackable-widgets event with the new
  list, and leaves the current editor, the preference scope, the tabs and
  the widgets' fields as they were. *)
Theorem X19_tracked_editors_follow_the_tabs :
  forall (st : State),
    let tabs := EditorsContainer.widgets (editorsContainer st) in
    let st' := handleEditorsChanged st in
    (forall e, In e (editors st') <-> In e tabs) /\
    (NoDup (editors st) -> NoDup (editors st')) /\
    (NoDup tabs ->
     editors st' = filter (fun e => mem e tabs) (editors st)
                   ++ filter (fun e => negb (mem e (editors st))) tabs) /\
    effects st' = effects st ++ [TrackableWidgetsChanged (editors st')] /\
    currentEditor st' = currentEditor st /\
    preferenceScope st' = preferenceScope st /\
    EditorsContainer.widgets (editorsContainer st') = tabs /\
    EditorsContainer.store (editorsContainer st')
    = EditorsContainer.store (editorsContainer st).
Proof.
  intros st tabs st'.
  destruct (activate_frame (preferenceScope st) (editorsContainer st)) as [Hw Hs].
  cbv zeta in Hw, Hs.
  unfold st', handleEditorsChanged. fold tabs.
  cbn [doActivatePreferenceEditor on_editorsContainer set_preferenceScope emit set_editors
       editors effects currentEditor preferenceScope editorsContainer].
  split; [|split; [|split]]; [| | |repeat split; assumption].
  - intros e. rewrite filter_In, added_In, mem_In. tauto.
  - intros H. now apply NoDup_filter, added_NoDup.
  - intros H. rewrite added_formula, filter_app by assumption. f_equal.
    apply filter_all. intros x Hx. apply filter_In in Hx as [Hx _]. now apply mem_In.
Qed.

Lemma X19_witness :
  editors (handleEditorsChanged (initial Samples.ec_with_folder))
  = filter (fun e => mem e (EditorsContainer.widgets Samples.ec_with_folder)) []
    ++ filter (fun e => negb (mem e [])) (EditorsContainer.widgets Samples.ec_with_folder).
Proof.
  apply (proj1 (proj2 (proj2 (X19_tracked_editors_follow_the_tabs
                                (initial Samples.ec_with_folder))))).
  repeat constructor; simpl; intuition discriminate.
Defined.

Lemma handle_spec st :
  let st' := handleEditorsChanged st in
  (forall e, In e (editors st') <-> In e (EditorsContainer.widgets (editorsContainer st))) /\
  EditorsContainer.widgets (editorsContainer st')
  = EditorsContainer.widgets (editorsContainer st) /\
  EditorsContainer.store (editorsContainer st')
  = EditorsContainer.store (editorsContainer st).
Proof.
  destruct (activate_frame (preferenceScope st) (editorsContainer st)) as [Hw Hs].
  cbv zeta in *. unfold handleEditorsChanged.
  cbn [doActivatePreferenceEditor on_editorsContainer set_preferenceScope emit set_editors
       editors effects currentEditor preferenceScope editorsContainer].
  repeat split; try assumption.
  - intros H. apply filter_In in H as [_ H]. now apply mem_In.
  - intros H. apply filter_In. split; [apply added_In; now right | now apply mem_In].
Qed.

Lemma added_saturated tabs : forall eds,
  (forall t, In t tabs -> In t eds) ->
  fold_left (fun acc editor => if mem editor acc then acc else acc ++ [editor]) tabs eds
  = eds.
Proof.
  induction tabs as [|t tabs IH]; intros eds H; simpl; [reflexivity|].
  assert (mem t eds = true) as -> by (apply mem_In, H; now left).
  apply IH. intros x Hx. apply H. now right.
Qed.

(** X20. Reconciling twice in a row tracks the same editors as reconciling
  once: the second call only fires the trackable-widgets event again, with
  the same list. *)
Theorem X20_reconciling_again_changes_no_editor :
  forall (st : State),
    let st1 := handleEditorsChanged st in
    let st2 := handleEditorsChanged st1 in
    editors st2 = editors st1 /\
    effects st2 = effects st1 ++ [TrackableWidgetsChanged (editors st1)].
Proof.
  intros st st1 st2.
  destruct (handle_spec st) as (Hin & Hw & _). cbv zeta in Hin, Hw. fold st1 in Hin, Hw.
  assert (He : editors st2 = editors st1).
  { unfold st2, handleEditorsChanged.
    cbn [doActivatePreferenceEditor on_editorsContainer set_preferenceScope emit
         set_editors editors].
    rewrite added_saturated.
    - apply filter_all. intros x Hx. apply mem_In. rewrite Hw. now apply Hin.
    - intros t Ht. apply Hin. now rewrite <- Hw. }
  split; [exact He|]. rewrite <- He. reflexivity.
Qed.

(** X21. After the tracked editors were reconciled, the aggregate [dirty] is
  true exactly when the saveable of some tab of the editors container is
  dirty. *)
Theorem X21_dirty_after_reconciling_is_about_the_tabs :
  forall (st : State),
    dirty (handleEditorsChanged st) = true <->
    exists w, In w (EditorsContainer.widgets (editorsContainer st)) /\
              Widgets.dirty (saveable (widget st w)) = true.
Proof.
  intros st. destruct (handle_spec st) as (Hin & _ & Hs). cbv zeta in Hin, Hs.
  unfold dirty, widget. rewrite existsb_exists, Hs.
  split; intros (w & Hw & Hd); exists w; (split; [now apply Hin | exact Hd]).
Qed.

Lemma X21_witness :
  dirty (handleEditorsChanged (Samples.three_editors false false true)) = true.
Proof.
  apply (proj2 (X21_dirty_after_reconciling_is_about_the_tabs
                  (Samples.three_editors false false true))).
  exists "c"%string. split; [simpl; auto | reflexivity].
Defined.

(** X22. A change of the workspace roots that leaves the folder of the open
  Folder editor among the roots changes nothing: the Folder editor is
  neither closed nor reopened. *)
Theorem X22_roots_change_keeping_the_active_folder :
  forall (h : Host) (st : State) (active : string),
    EditorsContainer.activeFolder h (editorsContainer st) = Some active ->
    In active (tryGetRoots h) ->
    onWorkspaceChanged h st = st.
Proof.
  intros h st active Ha Hin.
  unfold onWorkspaceChanged, refreshFoldersPreferencesEditor. rewrite Ha.
  destruct (tryGetRoots h) as [|r roots] eqn:Hr; [contradiction|].
  cbn [List.length Nat.eqb].
  assert (existsb (fun r0 => String.eqb r0 active) (r :: roots) = true) as ->;
    [|reflexivity].
  apply existsb_exists. exists active. split; [exact Hin | apply String.eqb_refl].
Qed.

Lemma X22_witness :
  onWorkspaceChanged Samples.host_saved (initial Samples.ec_with_folder)
  = initial Samples.ec_with_folder.
Proof.
  apply (X22_roots_change_keeping_the_active_folder
           Samples.host_saved (initial Samples.ec_with_folder) "file:///ws/a").
  - reflexivity.
  - simpl. auto.
Defined.

(** X23. Whenever the editor-changed listener completes, the current editor
  is the event's editor, the scope is that editor's scope (User when it has
  none or there is no editor), and the tracked editors and the editors
  container are untouched. It saves at most one editor, the previous one,
  and saves nothing when there was no current editor or the event carries
  the editor that is already current. *)
Theorem X23_focus_change_saves_at_most_the_previous_editor :
  forall (st st' : State) (editor : option WidgetRef),
    onEditorChanged editor st = Some st' ->
    currentEditor st' = editor /\
    preferenceScope st' = scope_of_focus editor st /\
    editors st' = editors st /\
    editorsContainer st' = editorsContainer st /\
    (effects st' = effects st \/
     exists previous, currentEditor st = Some previous /\
                      editor <> Some previous /\
                      effects st' = effects st ++ [Save previous]) /\
    (currentEditor st = None \/ currentEditor st = editor -> effects st' = effects st).
Proof.
  intros st st' editor H.
  unfold onEditorChanged, onEditorChanged_run, then_, start in H. cbn [now] in H.
  destruct (currentEditor st) as [current|] eqn:Hc.
  - destruct editor as [e|]; [|discriminate].
    destruct (String.eqb_spec current e) as [->|Hne]; cbn in H; injection H as <-;
      cbn; repeat split; auto.
    + right. exists current. repeat split; congruence.
    + intros [H|H]; congruence.
  - injection H as <-. cbn. repeat split; auto.
Qed.

Lemma X23_witness :
  exists st',
    onEditorChanged (Some "a"%string) (Samples.three_editors true false false) = Some st' /\
    effects st' = effects (Samples.three_editors true false false).
Proof.
  eexists. split; [reflexivity|].
  apply (X23_focus_change_saves_at_most_the_previous_editor
           (Samples.three_editors true false false) _ (Some "a"%string) eq_refl).
  right. reflexivity.
Defined.

(** X24. The editor-changed listener fails exactly when the event carries
  no editor while an editor is current: reading the missing editor's URI
  throws before anything is saved or updated. With no current editor an
  event without an editor resets the scope to User, leaves the current
  editor undefined and saves nothing. *)
Theorem X24_focus_change_without_editor :
  forall (st : State) (editor : option WidgetRef),
    (onEditorChanged editor st = None <-> editor = None /\ currentEditor st <> None) /\
    (editor = None -> currentEditor st = None ->
     exists st', onEditorChanged editor st = Some st' /\
                 preferenceScope st' = User /\
                 currentEditor st' = None /\
                 effects st' = effects st).
Proof.
  intros st editor.
  unfold onEditorChanged, onEditorChanged_run, then_, start. cbn [now]. split.
  - destruct (currentEditor st) as [current|]; [destruct editor as [e|]|].
    + destruct (negb (String.eqb current e)); (split; [discriminate|]);
        intros [H _]; discriminate H.
    + split; [split; [reflexivity | discriminate] | reflexivity].
    + split; [discriminate | intros [_ H]; now destruct H].
  - intros -> ->. eexists. split; [reflexivity|]. repeat split.
Qed.

Lemma X24_witness :
  onEditorChanged None (Samples.three_editors false false false) = None /\
  exists st', onEditorChanged None (initial Samples.ec_user_only) = Some st' /\
              preferenceScope st' = User /\
              currentEditor st' = None /\
              effects st' = effects (initial Samples.ec_user_only).
Proof.
  split.
  - apply (proj1 (X24_focus_change_without_editor
                    (Samples.three_editors false false false) None)).
    split; [reflexivity | discriminate].
  - apply (proj2 (X24_focus_change_without_editor (initial Samples.ec_user_only) None));
      reflexivity.
Defined.

End ContainerMore.
